(** * Billing page resolution and plan-update entry points

    A shallow embedding of [corporate/views/billing_page.py]: the three
    billing-page views ([billing_page], [remote_realm_billing_page],
    [remote_server_billing_page]) and the three plan-update endpoints
    ([update_plan], [update_plan_for_remote_realm],
    [update_plan_for_remote_server]).

    The views talk to collaborators that live in other modules (the billing
    session classes, the Customer / CustomerPlan tables).  A view is therefore
    embedded as a finite tree of collaborator calls ([Prog]); an interpreter
    feeds it the collaborators' answers and records the calls it made. *)

From Stdlib Require Import ZArith.
From stdpp Require Import base gmap strings list fin_maps.

Local Open Scope string_scope.
Local Open Scope Z_scope.

(** ** Data model *)

(** [Dict[str, Any]] values that a template context carries. *)
Inductive Any : Type :=
| ABool (b : bool)
| AStr (s : string)
| AInt (n : Z)
| ANone.

(** [zerver.models.Realm]: the two attributes the view reads. *)
Record Realm : Type := {
  realm_name : string;
  realm_plan_type : Z
}.

(** [zerver.models.UserProfile]: [has_billing_access] is a property. *)
Record UserProfile : Type := {
  has_billing_access : bool;
  realm : Realm
}.

(** [request.user]: the view asserts [user.is_authenticated]. *)
Inductive User : Type :=
| AnonymousUser
| Authenticated (user : UserProfile).

(** JSON-decoded request variables: an integer, or any other JSON value
    (string, null, list, object, float).  JSON booleans, which Python counts
    among the ints, are read as [JInt 1] and [JInt 0]. *)
Inductive json : Type :=
| JInt (n : Z)
| JOther (raw : string).

Record HttpRequest : Type := {
  request_user : User;
  request_vars : gmap string json
}.

(** [zilencer.models.RemoteRealm] and [RemoteZulipServer]. *)
Record RemoteRealm : Type := {
  rr_uuid : string;
  rr_name : string;
  rr_plan_type : Z
}.

Record RemoteZulipServer : Type := {
  rs_uuid : string;
  rs_hostname : string;
  rs_plan_type : Z
}.

(** [corporate.models.Customer]: identity and the sponsorship flag. *)
Record Customer : Type := {
  customer_id : Z;
  sponsorship_pending : bool
}.

(** The three billing-session classes, as the arguments they are built from. *)
Record RealmBillingSession : Type := {
  session_user : option UserProfile;
  session_realm : option Realm
}.

Record RemoteRealmBillingSession : Type := {
  remote_realm : RemoteRealm
}.

Record RemoteServerBillingSession : Type := {
  remote_server : RemoteZulipServer
}.

Inductive BillingSession : Type :=
| OfRealm (s : RealmBillingSession)
| OfRemoteRealm (s : RemoteRealmBillingSession)
| OfRemoteServer (s : RemoteServerBillingSession).

(** [corporate.lib.stripe.UpdatePlanRequest] (a dataclass of four optional
    ints). *)
Record UpdatePlanRequest : Type := {
  status : option Z;
  licenses : option Z;
  licenses_at_next_renewal : option Z;
  schedule : option Z
}.

(** Class-level constants that the view reads from [CustomerPlan], [Realm],
    [RemoteRealm] and [RemoteZulipServer].  Their numeric values are declared
    in other modules, so the development is parametric in them.  The two
    billing-schedule codes are never read by the view; they are listed so
    that the monthly/annual enumeration can be named. *)
Class Constants : Type := {
  ACTIVE : Z;
  DOWNGRADE_AT_END_OF_CYCLE : Z;
  SWITCH_TO_ANNUAL_AT_END_OF_CYCLE : Z;
  SWITCH_TO_MONTHLY_AT_END_OF_CYCLE : Z;
  FREE_TRIAL : Z;
  DOWNGRADE_AT_END_OF_FREE_TRIAL : Z;
  ENDED : Z;
  BILLING_SCHEDULE_ANNUAL : Z;
  BILLING_SCHEDULE_MONTHLY : Z;
  Realm_PLAN_TYPE_STANDARD_FREE : Z;
  Realm_PLAN_TYPE_LIMITED : Z;
  RemoteRealm_PLAN_TYPE_COMMUNITY : Z;
  RemoteRealm_PLAN_TYPE_SELF_HOSTED : Z;
  RemoteZulipServer_PLAN_TYPE_COMMUNITY : Z;
  RemoteZulipServer_PLAN_TYPE_SELF_HOSTED : Z
}.

(** ** Responses *)

(** [django.urls.reverse]: kept symbolic, as the view name and its
    arguments. *)
Record Url : Type := reverse {
  viewname : string;
  url_args : list string;
  url_kwargs : list (string * string)
}.

Inductive HttpResponse : Type :=
| Rendered (template : string) (context : gmap string Any)
| HttpResponseRedirect (url : Url)
| JsonSuccess.

Definition render (request : HttpRequest) (template : string)
    (context : gmap string Any) : HttpResponse :=
  Rendered template context.

Definition json_success (request : HttpRequest) : HttpResponse := JsonSuccess.

(** ** Exceptions *)

Inductive Exn : Type :=
| AssertionError
| JsonableError (msg : string)
| BillingError (msg : string).

Inductive Outcome (A : Type) : Type :=
| Returns (a : A)
| Raises (e : Exn).

Arguments Returns {A} a.
Arguments Raises {A} e.

(** ** Collaborator calls *)

Inductive Call : Type :=
| get_customer_by_realm (r : Realm)
| get_customer (s : BillingSession)
| session_has_billing_access (s : BillingSession)
| on_paid_plan (s : BillingSession)
| CustomerPlan_filter_exists (c : Customer)
| get_billing_page_context (s : BillingSession)
| do_update_plan (s : BillingSession) (r : UpdatePlanRequest).

(** What a collaborator hands back.  The lookups are followed on the
    executions in which they return: an exception raised inside a lookup
    unwinds the view as it is and has no place in this model. *)
Definition Answer (c : Call) : Type :=
  match c with
  | get_customer_by_realm _ => option Customer
  | get_customer _ => option Customer
  | session_has_billing_access _ => bool
  | on_paid_plan _ => bool
  | CustomerPlan_filter_exists _ => bool
  | get_billing_page_context _ => gmap string Any
  | do_update_plan _ _ => Outcome unit
  end.

(** A view: it returns, or it calls a collaborator and goes on with the
    answer. *)
Inductive Prog (A : Type) : Type :=
| Ret (a : A)
| Do (c : Call) (k : Answer c -> Prog A).

Arguments Ret {A} a.
Arguments Do {A} c k.

Fixpoint bind {A B : Type} (p : Prog A) (f : A -> Prog B) : Prog B :=
  match p with
  | Ret a => f a
  | Do c k => Do c (fun x => bind (k x) f)
  end.

#[global] Instance Prog_ret : MRet Prog := fun A a => Ret a.
#[global] Instance Prog_bind : MBind Prog := fun A B f p => bind p f.

Definition call (c : Call) : Prog (Answer c) := Do c Ret.

#[global] Instance Outcome_ret : MRet Outcome := fun A a => Returns a.
#[global] Instance Outcome_bind : MBind Outcome := fun A B f o =>
  match o with
  | Returns a => f a
  | Raises e => Raises e
  end.

(** ** Interpreters *)

(** The collaborators' answers when they only read: one answer per call. *)
Record Env : Type := {
  env_get_customer_by_realm : Realm -> option Customer;
  env_get_customer : BillingSession -> option Customer;
  env_has_billing_access : BillingSession -> bool;
  env_on_paid_plan : BillingSession -> bool;
  env_exists : Customer -> bool;
  env_get_billing_page_context : BillingSession -> gmap string Any;
  env_do_update_plan : BillingSession -> UpdatePlanRequest -> Outcome unit
}.

Definition answer (e : Env) (c : Call) : Answer c :=
  match c with
  | get_customer_by_realm r => env_get_customer_by_realm e r
  | get_customer s => env_get_customer e s
  | session_has_billing_access s => env_has_billing_access e s
  | on_paid_plan s => env_on_paid_plan e s
  | CustomerPlan_filter_exists c => env_exists e c
  | get_billing_page_context s => env_get_billing_page_context e s
  | do_update_plan s r => env_do_update_plan e s r
  end.

(** Run a view against fixed answers; the second component lists the calls
    in the order they were made. *)
Fixpoint eval {A : Type} (e : Env) (p : Prog A) : A * list Call :=
  match p with
  | Ret a => (a, [])
  | Do c k => let x := eval e (k (answer e c)) in (x.1, c :: x.2)
  end.

Definition result {A : Type} (x : A * list Call) : A := fst x.
Definition calls {A : Type} (x : A * list Call) : list Call := snd x.

(** Collaborators that may also change the stored records: a handler maps a
    call and a store to an answer and the store afterwards. *)
Definition Handler (W : Type) : Type := forall c : Call, W -> Answer c * W.

Fixpoint run {W A : Type} (h : Handler W) (p : Prog A) (w : W)
    : A * W * list Call :=
  match p with
  | Ret a => (a, w, [])
  | Do c k =>
      let x := h c w in
      let y := run h (k x.1) x.2 in
      (y.1.1, y.1.2, c :: y.2)
  end.

(** Modelled from the spec: the collaborators are defined outside this file.
    Sections 4.1, 5 and 6 of the spec declare [hasBillingAccess],
    [getCustomer], [onPaidPlan], [billingPageContext] and the CustomerPlan
    existence test as reads; only [doUpdatePlan] is an update. *)
Definition is_lookup (c : Call) : bool :=
  match c with
  | do_update_plan _ _ => false
  | _ => true
  end.



Definition is_do_update_plan (c : Call) : bool :=
  match c with
  | do_update_plan _ _ => true
  | _ => false
  end.

(** ** The billing-page views *)

Section Views.
Context `{K : Constants}.

(** [billing_page] (local organization).  The login decorator is outside
    this file; the assertion on [user.is_authenticated] is kept. *)
Definition billing_page (request : HttpRequest) (success_message : string)
    : Prog (Outcome HttpResponse) :=
  match request_user request with
  | AnonymousUser => mret (Raises AssertionError)
  | Authenticated user =>
    let billing_session :=
      OfRealm {| session_user := None; session_realm := Some (realm user) |} in
    let context : gmap string Any :=
      list_to_map [
        ("admin_access", ABool (has_billing_access user));
        ("has_active_plan", ABool false);
        ("org_name", AStr (realm_name (realm user)));
        ("billing_base_url", AStr "")
      ] in
    if negb (has_billing_access user) then
      mret (Returns (render request "corporate/billing.html" context))
    else if realm_plan_type (realm user) =? Realm_PLAN_TYPE_STANDARD_FREE then
      mret (Returns (HttpResponseRedirect (reverse "sponsorship_request" [] [])))
    else
      customer ← call (get_customer_by_realm (realm user));
      pending ← match customer with
                | Some c =>
                    if sponsorship_pending c then
                      paid ← call (on_paid_plan billing_session);
                      if negb paid then
                        mret (inl (HttpResponseRedirect
                                     (reverse "sponsorship_request" [] [])))
                      else
                        mret (inr (<["sponsorship_pending" := ABool true]> context))
                    else mret (inr context)
                | None => mret (inr context)
                end;
      match pending with
      | inl response => mret (Returns response)
      | inr context =>
        if realm_plan_type (realm user) =? Realm_PLAN_TYPE_LIMITED then
          mret (Returns (HttpResponseRedirect (reverse "plans" [] [])))
        else
          match customer with
          | None =>
              mret (Returns (HttpResponseRedirect (reverse "upgrade_page" [] [])))
          | Some c =>
              has_plan ← call (CustomerPlan_filter_exists c);
              if negb has_plan then
                mret (Returns (HttpResponseRedirect (reverse "upgrade_page" [] [])))
              else
                main_context ← call (get_billing_page_context billing_session);
                let context :=
                  if decide (main_context = ∅) then context
                  else <["success_message" := AStr success_message]>
                         (main_context ∪ context) in
                mret (Returns (render request "corporate/billing.html" context))
          end
      end
  end.

(** [remote_realm_billing_page].  The session comes from the endpoint
    decorator, which is outside this file. *)
Definition remote_realm_billing_page (request : HttpRequest)
    (billing_session : RemoteRealmBillingSession) (success_message : string)
    : Prog HttpResponse :=
  let realm_uuid := rr_uuid (remote_realm billing_session) in
  admin_access ← call (session_has_billing_access (OfRemoteRealm billing_session));
  let context : gmap string Any :=
    list_to_map [
      ("admin_access", ABool admin_access);
      ("has_active_plan", ABool false);
      ("org_name", AStr (rr_name (remote_realm billing_session)));
      ("billing_base_url", AStr ("/realm/" +:+ realm_uuid))
    ] in
  if rr_plan_type (remote_realm billing_session) =? RemoteRealm_PLAN_TYPE_COMMUNITY then
    mret (HttpResponseRedirect
            (reverse "remote_realm_sponsorship_page" [realm_uuid] []))
  else
    customer ← call (get_customer (OfRemoteRealm billing_session));
    pending ← match customer with
              | Some c =>
                  if sponsorship_pending c then
                    paid ← call (on_paid_plan (OfRemoteRealm billing_session));
                    if negb paid then
                      mret (inl (HttpResponseRedirect
                                   (reverse "remote_realm_sponsorship_page"
                                      [realm_uuid] [])))
                    else
                      mret (inr (<["sponsorship_pending" := ABool true]> context))
                  else mret (inr context)
              | None => mret (inr context)
              end;
    match pending with
    | inl response => mret response
    | inr context =>
      if rr_plan_type (remote_realm billing_session) =? RemoteRealm_PLAN_TYPE_SELF_HOSTED then
        mret (HttpResponseRedirect
                (reverse "remote_realm_plans_page" [realm_uuid] []))
      else
        match customer with
        | None =>
            mret (HttpResponseRedirect
                    (reverse "remote_realm_upgrade_page" [realm_uuid] []))
        | Some c =>
            has_plan ← call (CustomerPlan_filter_exists c);
            if negb has_plan then
              mret (HttpResponseRedirect
                      (reverse "remote_realm_upgrade_page" [realm_uuid] []))
            else
              main_context ← call (get_billing_page_context
                                     (OfRemoteRealm billing_session));
              let context :=
                if decide (main_context = ∅) then context
                else <["success_message" := AStr success_message]>
                       (main_context ∪ context) in
              mret (render request "corporate/billing.html" context)
        end
    end.

(** [remote_server_billing_page].  The last redirect tests three conditions
    in one [or], left to right. *)
Definition remote_server_billing_page (request : HttpRequest)
    (billing_session : RemoteServerBillingSession) (success_message : string)
    : Prog HttpResponse :=
  let server_uuid := rs_uuid (remote_server billing_session) in
  admin_access ← call (session_has_billing_access (OfRemoteServer billing_session));
  let context : gmap string Any :=
    list_to_map [
      ("admin_access", ABool admin_access);
      ("has_active_plan", ABool false);
      ("org_name", AStr (rs_hostname (remote_server billing_session)));
      ("billing_base_url", AStr ("/server/" +:+ server_uuid))
    ] in
  if rs_plan_type (remote_server billing_session) =? RemoteZulipServer_PLAN_TYPE_COMMUNITY then
    mret (HttpResponseRedirect
            (reverse "remote_server_sponsorship_page" []
               [("server_uuid", server_uuid)]))
  else
    customer ← call (get_customer (OfRemoteServer billing_session));
    pending ← match customer with
              | Some c =>
                  if sponsorship_pending c then
                    paid ← call (on_paid_plan (OfRemoteServer billing_session));
                    if negb paid then
                      mret (inl (HttpResponseRedirect
                                   (reverse "remote_server_sponsorship_page" []
                                      [("server_uuid", server_uuid)])))
                    else
                      mret (inr (<["sponsorship_pending" := ABool true]> context))
                  else mret (inr context)
              | None => mret (inr context)
              end;
    match pending with
    | inl response => mret response
    | inr context =>
      let upgrade :=
        HttpResponseRedirect
          (reverse "remote_server_upgrade_page" []
             [("server_uuid", server_uuid)]) in
      if rs_plan_type (remote_server billing_session) =? RemoteZulipServer_PLAN_TYPE_SELF_HOSTED then
        mret upgrade
      else
        match customer with
        | None => mret upgrade
        | Some c =>
            has_plan ← call (CustomerPlan_filter_exists c);
            if negb has_plan then mret upgrade
            else
              main_context ← call (get_billing_page_context
                                     (OfRemoteServer billing_session));
              let context :=
                if decide (main_context = ∅) then context
                else <["success_message" := AStr success_message]>
                       (main_context ∪ context) in
              mret (render request "corporate/billing.html" context)
        end
    end.

End Views.

(** ** The plan-update endpoints *)

Definition Validator : Type := string -> json -> Outcome Z.

(** Modelled from the spec: [zerver.lib.validator.check_int] is imported by
    the view and defined in another module.  It is modelled as the integer
    test that its name and the optional-int fields of the update request
    (section 3) give.  Section 6 of the spec names narrower domains for the
    fields it guards (non-negative licence counts, the monthly / annual
    schedule codes); whether the boundary enforces them is decided by code
    outside this file.  The theorems on accepted requests are stated for
    requests that pass this test, and none of them singles out a negative
    licence count or a schedule code outside the enumeration. *)
Definition check_int : Validator := fun var_name val =>
  match val with
  | JInt n => Returns n
  | JOther _ => Raises (JsonableError (var_name +:+ " is not an integer"))
  end.

(** Modelled from the spec: [zerver.lib.validator.check_int_in] is imported
    by the view and defined in another module.  The spec restricts [status]
    to the enumeration handed to the validator (section 6): an integer that
    is a member of [possible_values]. *)
Definition check_int_in (possible_values : list Z) : Validator :=
  fun var_name val =>
    n ← check_int var_name val;
    if bool_decide (n ∈ possible_values) then Returns n
    else Raises (JsonableError ("Invalid " +:+ var_name)).

(** Modelled from the spec: [zerver.lib.request.REQ] with a [json_validator]
    and a default, as [has_request_variables] processes it: an absent request
    variable yields the default, a present one goes through the validator,
    whose failure is raised to the client before the view body runs. *)
Definition REQ (request : HttpRequest) (var_name : string)
    (json_validator : Validator) (default : option Z) : Outcome (option Z) :=
  match request_vars request !! var_name with
  | None => Returns default
  | Some val => n ← json_validator var_name val; Returns (Some n)
  end.

Section Endpoints.
Context `{K : Constants}.

Definition ALLOWED_PLANS_API_STATUS_VALUES : list Z := [
  ACTIVE;
  DOWNGRADE_AT_END_OF_CYCLE;
  SWITCH_TO_ANNUAL_AT_END_OF_CYCLE;
  SWITCH_TO_MONTHLY_AT_END_OF_CYCLE;
  FREE_TRIAL;
  DOWNGRADE_AT_END_OF_FREE_TRIAL;
  ENDED
].

(** [update_plan] (local organization): the request variables are validated
    in the order of the signature, then the body runs.  The billing-access
    decorator, outside this file, has already produced [user]. *)
Definition update_plan (request : HttpRequest) (user : UserProfile)
    : Prog (Outcome HttpResponse) :=
  match
    status ← REQ request "status"
               (check_int_in ALLOWED_PLANS_API_STATUS_VALUES) None;
    licenses ← REQ request "licenses" check_int None;
    licenses_at_next_renewal ←
      REQ request "licenses_at_next_renewal" check_int None;
    schedule ← REQ request "schedule" check_int None;
    Returns (status, licenses, licenses_at_next_renewal, schedule)
  with
  | Raises e => mret (Raises e)
  | Returns (status, licenses, licenses_at_next_renewal, schedule) =>
    let update_plan_request := {|
      status := status;
      licenses := licenses;
      licenses_at_next_renewal := licenses_at_next_renewal;
      schedule := schedule
    |} in
    let billing_session :=
      OfRealm {| session_user := Some user; session_realm := None |} in
    applied ← call (do_update_plan billing_session update_plan_request);
    match applied with
    | Raises e => mret (Raises e)
    | Returns _ => mret (Returns (json_success request))
    end
  end.

Definition update_plan_for_remote_realm (request : HttpRequest)
    (billing_session : RemoteRealmBillingSession)
    : Prog (Outcome HttpResponse) :=
  match
    status ← REQ request "status"
               (check_int_in ALLOWED_PLANS_API_STATUS_VALUES) None;
    licenses ← REQ request "licenses" check_int None;
    licenses_at_next_renewal ←
      REQ request "licenses_at_next_renewal" check_int None;
    schedule ← REQ request "schedule" check_int None;
    Returns (status, licenses, licenses_at_next_renewal, schedule)
  with
  | Raises e => mret (Raises e)
  | Returns (status, licenses, licenses_at_next_renewal, schedule) =>
    let update_plan_request := {|
      status := status;
      licenses := licenses;
      licenses_at_next_renewal := licenses_at_next_renewal;
      schedule := schedule
    |} in
    applied ← call (do_update_plan (OfRemoteRealm billing_session)
                   update_plan_request);
    match applied with
    | Raises e => mret (Raises e)
    | Returns _ => mret (Returns (json_success request))
    end
  end.

Definition update_plan_for_remote_server (request : HttpRequest)
    (billing_session : RemoteServerBillingSession)
    : Prog (Outcome HttpResponse) :=
  match
    status ← REQ request "status"
               (check_int_in ALLOWED_PLANS_API_STATUS_VALUES) None;
    licenses ← REQ request "licenses" check_int None;
    licenses_at_next_renewal ←
      REQ request "licenses_at_next_renewal" check_int None;
    schedule ← REQ request "schedule" check_int None;
    Returns (status, licenses, licenses_at_next_renewal, schedule)
  with
  | Raises e => mret (Raises e)
  | Returns (status, licenses, licenses_at_next_renewal, schedule) =>
    let update_plan_request := {|
      status := status;
      licenses := licenses;
      licenses_at_next_renewal := licenses_at_next_renewal;
      schedule := schedule
    |} in
    applied ← call (do_update_plan (OfRemoteServer billing_session)
                   update_plan_request);
    match applied with
    | Raises e => mret (Raises e)
    | Returns _ => mret (Returns (json_success request))
    end
  end.

(** A request is rejected at the boundary when the endpoint raises and
    [do_update_plan] does not appear among the calls made. *)
Definition rejected_at_boundary (x : Outcome HttpResponse * list Call) : bool :=
  match result x with
  | Raises _ => forallb (fun c => negb (is_do_update_plan c)) (calls x)
  | Returns _ => false
  end.

End Endpoints.

(** ** Account contexts *)

(** The three kinds of account, each with the argument its view receives.
    A local organization is reached through a logged-in user. *)
Inductive AccountContext : Type :=
| LocalOrganization (user : UserProfile)
| RemoteRealmAccount (billing_session : RemoteRealmBillingSession)
| RemoteServerAccount (billing_session : RemoteServerBillingSession).

Definition request_of (u : User) : HttpRequest :=
  {| request_user := u; request_vars := ∅ |}.

Section Resolver.
Context `{K : Constants}.

(** The view that serves each kind of account. *)
Definition resolve (ctx : AccountContext) (success_message : string)
    : Prog (Outcome HttpResponse) :=
  match ctx with
  | LocalOrganization user =>
      billing_page (request_of (Authenticated user)) success_message
  | RemoteRealmAccount s =>
      r ← remote_realm_billing_page (request_of AnonymousUser) s success_message;
      mret (Returns r)
  | RemoteServerAccount s =>
      r ← remote_server_billing_page (request_of AnonymousUser) s success_message;
      mret (Returns r)
  end.

(** The plan-update endpoint of each kind of account. *)
Definition update (ctx : AccountContext) (request : HttpRequest)
    : Prog (Outcome HttpResponse) :=
  match ctx with
  | LocalOrganization user => update_plan request user
  | RemoteRealmAccount s => update_plan_for_remote_realm request s
  | RemoteServerAccount s => update_plan_for_remote_server request s
  end.

(** What the decision steps look at, per kind of account. *)
Definition access_gate (ctx : AccountContext) : bool :=
  match ctx with
  | LocalOrganization user => negb (has_billing_access user)
  | _ => false
  end.

Definition community_tier (ctx : AccountContext) : bool :=
  match ctx with
  | LocalOrganization user =>
      realm_plan_type (realm user) =? Realm_PLAN_TYPE_STANDARD_FREE
  | RemoteRealmAccount s =>
      rr_plan_type (remote_realm s) =? RemoteRealm_PLAN_TYPE_COMMUNITY
  | RemoteServerAccount s =>
      rs_plan_type (remote_server s) =? RemoteZulipServer_PLAN_TYPE_COMMUNITY
  end.

Definition limited_tier (ctx : AccountContext) : bool :=
  match ctx with
  | LocalOrganization user =>
      realm_plan_type (realm user) =? Realm_PLAN_TYPE_LIMITED
  | RemoteRealmAccount s =>
      rr_plan_type (remote_realm s) =? RemoteRealm_PLAN_TYPE_SELF_HOSTED
  | RemoteServerAccount s =>
      rs_plan_type (remote_server s) =? RemoteZulipServer_PLAN_TYPE_SELF_HOSTED
  end.

Definition session_of (ctx : AccountContext) : BillingSession :=
  match ctx with
  | LocalOrganization user =>
      OfRealm {| session_user := None; session_realm := Some (realm user) |}
  | RemoteRealmAccount s => OfRemoteRealm s
  | RemoteServerAccount s => OfRemoteServer s
  end.

Definition customer_of (e : Env) (ctx : AccountContext) : option Customer :=
  match ctx with
  | LocalOrganization user => env_get_customer_by_realm e (realm user)
  | _ => env_get_customer e (session_of ctx)
  end.

Definition has_access (e : Env) (ctx : AccountContext) : bool :=
  match ctx with
  | LocalOrganization user => has_billing_access user
  | _ => env_has_billing_access e (session_of ctx)
  end.

Definition is_pending (customer : option Customer) : bool :=
  match customer with
  | Some c => sponsorship_pending c
  | None => false
  end.

Definition has_plan_rows (e : Env) (customer : option Customer) : bool :=
  match customer with
  | Some c => env_exists e c
  | None => false
  end.

(** The responses of each kind of account. *)
Definition sponsorship_redirect (ctx : AccountContext) : HttpResponse :=
  match ctx with
  | LocalOrganization _ =>
      HttpResponseRedirect (reverse "sponsorship_request" [] [])
  | RemoteRealmAccount s =>
      HttpResponseRedirect
        (reverse "remote_realm_sponsorship_page" [rr_uuid (remote_realm s)] [])
  | RemoteServerAccount s =>
      HttpResponseRedirect
        (reverse "remote_server_sponsorship_page" []
           [("server_uuid", rs_uuid (remote_server s))])
  end.

Definition upgrade_redirect (ctx : AccountContext) : HttpResponse :=
  match ctx with
  | LocalOrganization _ => HttpResponseRedirect (reverse "upgrade_page" [] [])
  | RemoteRealmAccount s =>
      HttpResponseRedirect
        (reverse "remote_realm_upgrade_page" [rr_uuid (remote_realm s)] [])
  | RemoteServerAccount s =>
      HttpResponseRedirect
        (reverse "remote_server_upgrade_page" []
           [("server_uuid", rs_uuid (remote_server s))])
  end.

(** Where the limited / self-hosted tier is sent: the remote-server view
    has no plans destination and uses its upgrade page. *)
Definition limited_tier_redirect (ctx : AccountContext) : HttpResponse :=
  match ctx with
  | LocalOrganization _ => HttpResponseRedirect (reverse "plans" [] [])
  | RemoteRealmAccount s =>
      HttpResponseRedirect
        (reverse "remote_realm_plans_page" [rr_uuid (remote_realm s)] [])
  | RemoteServerAccount _ => upgrade_redirect ctx
  end.

Definition base_context (e : Env) (ctx : AccountContext) : gmap string Any :=
  match ctx with
  | LocalOrganization user =>
      list_to_map [
        ("admin_access", ABool (has_billing_access user));
        ("has_active_plan", ABool false);
        ("org_name", AStr (realm_name (realm user)));
        ("billing_base_url", AStr "")
      ]
  | RemoteRealmAccount s =>
      list_to_map [
        ("admin_access", ABool (env_has_billing_access e (OfRemoteRealm s)));
        ("has_active_plan", ABool false);
        ("org_name", AStr (rr_name (remote_realm s)));
        ("billing_base_url", AStr ("/realm/" +:+ rr_uuid (remote_realm s)))
      ]
  | RemoteServerAccount s =>
      list_to_map [
        ("admin_access", ABool (env_has_billing_access e (OfRemoteServer s)));
        ("has_active_plan", ABool false);
        ("org_name", AStr (rs_hostname (remote_server s)));
        ("billing_base_url", AStr ("/server/" +:+ rs_uuid (remote_server s)))
      ]
  end.

(** The context of the billing page: the collaborator's mapping laid over
    the view's own entries, then the success message. *)
Definition merged_context (context main_context : gmap string Any)
    (success_message : string) : gmap string Any :=
  if decide (main_context = ∅) then context
  else <["success_message" := AStr success_message]> (main_context ∪ context).

Definition flagged_context (e : Env) (ctx : AccountContext) : gmap string Any :=
  if is_pending (customer_of e ctx)
  then <["sponsorship_pending" := ABool true]> (base_context e ctx)
  else base_context e ctx.

Definition billing_template : string := "corporate/billing.html".

Definition no_access_page (e : Env) (ctx : AccountContext) : HttpResponse :=
  Rendered billing_template (base_context e ctx).

Definition billing_page_response (e : Env) (ctx : AccountContext)
    (success_message : string) : HttpResponse :=
  Rendered billing_template
    (merged_context (flagged_context e ctx)
       (env_get_billing_page_context e (session_of ctx)) success_message).

(** ** Section 4.1 of the spec: ordered steps, first match wins *)

Fixpoint first_match {A : Type} (steps : list (bool * A)) (otherwise : A) : A :=
  match steps with
  | [] => otherwise
  | (guard, outcome) :: rest =>
      if guard then outcome else first_match rest otherwise
  end.

(** The steps as the views take them: the six guards in the order of
    section 4.1, each with the response the view of that kind of account
    gives.  The access guard is the one the view tests, so it is [false] for
    the remote views, which test none. *)
Definition decision_steps (e : Env) (ctx : AccountContext)
    : list (bool * HttpResponse) :=
  let customer := customer_of e ctx in
  [ (access_gate ctx, no_access_page e ctx);
    (community_tier ctx, sponsorship_redirect ctx);
    (is_pending customer && negb (env_on_paid_plan e (session_of ctx)),
       sponsorship_redirect ctx);
    (limited_tier ctx, limited_tier_redirect ctx);
    (bool_decide (customer = None), upgrade_redirect ctx);
    (negb (has_plan_rows e customer), upgrade_redirect ctx) ].

Definition resolve_in_order (e : Env) (ctx : AccountContext)
    (success_message : string) : HttpResponse :=
  first_match (decision_steps e ctx) (billing_page_response e ctx success_message).



(** The collaborator calls of a billing-page view, in the order in which the
    steps of section 4.1 need them. *)
Definition fetch_call (ctx : AccountContext) : Call :=
  match ctx with
  | LocalOrganization user => get_customer_by_realm (realm user)
  | _ => get_customer (session_of ctx)
  end.


(** The session each plan-update endpoint hands the request to. *)
Definition update_session (ctx : AccountContext) : BillingSession :=
  match ctx with
  | LocalOrganization user =>
      OfRealm {| session_user := Some user; session_realm := None |}
  | RemoteRealmAccount s => OfRemoteRealm s
  | RemoteServerAccount s => OfRemoteServer s
  end.

End Resolver.

Definition is_remote_server (ctx : AccountContext) : bool :=
  match ctx with
  | RemoteServerAccount _ => true
  | _ => false
  end.

(** The destinations, by view name. *)
Inductive PageKind : Type := SponsorshipPage | PlansPage | UpgradePage.

Definition page_kind (u : Url) : option PageKind :=
  let n := viewname u in
  if (n =? "sponsorship_request")%string
     || (n =? "remote_realm_sponsorship_page")%string
     || (n =? "remote_server_sponsorship_page")%string then Some SponsorshipPage
  else if (n =? "plans")%string
     || (n =? "remote_realm_plans_page")%string then Some PlansPage
  else if (n =? "upgrade_page")%string
     || (n =? "remote_realm_upgrade_page")%string
     || (n =? "remote_server_upgrade_page")%string then Some UpgradePage
  else None.

Inductive ResponseKind : Type :=
| BillingPage
| RedirectTo (k : PageKind)
| OtherResponse.

Definition response_kind (r : Outcome HttpResponse) : ResponseKind :=
  match r with
  | Returns (Rendered _ _) => BillingPage
  | Returns (HttpResponseRedirect u) =>
      match page_kind u with
      | Some k => RedirectTo k
      | None => OtherResponse
      end
  | _ => OtherResponse
  end.

(** The kind of response of each step, as one table for the three kinds of
    account: the account kind enters at the limited-tier step only. *)
Definition step_kinds (remote_server : bool)
    (gate community sponsorship limited no_customer no_rows : bool)
    : ResponseKind :=
  first_match
    [ (gate, BillingPage);
      (community, RedirectTo SponsorshipPage);
      (sponsorship, RedirectTo SponsorshipPage);
      (limited, RedirectTo (if remote_server then UpgradePage else PlansPage));
      (no_customer, RedirectTo UpgradePage);
      (no_rows, RedirectTo UpgradePage) ]
    BillingPage.

(** ** Sample data *)

(** One assignment of the constants (the codes of the upstream models); the
    theorems below hold for every assignment. *)
Definition sample_constants : Constants := {|
  ACTIVE := 1;
  DOWNGRADE_AT_END_OF_CYCLE := 2;
  SWITCH_TO_ANNUAL_AT_END_OF_CYCLE := 4;
  SWITCH_TO_MONTHLY_AT_END_OF_CYCLE := 6;
  FREE_TRIAL := 3;
  DOWNGRADE_AT_END_OF_FREE_TRIAL := 7;
  ENDED := 11;
  BILLING_SCHEDULE_ANNUAL := 1;
  BILLING_SCHEDULE_MONTHLY := 2;
  Realm_PLAN_TYPE_STANDARD_FREE := 4;
  Realm_PLAN_TYPE_LIMITED := 2;
  RemoteRealm_PLAN_TYPE_COMMUNITY := 100;
  RemoteRealm_PLAN_TYPE_SELF_HOSTED := 1;
  RemoteZulipServer_PLAN_TYPE_COMMUNITY := 100;
  RemoteZulipServer_PLAN_TYPE_SELF_HOSTED := 1
|}.

Definition sample_customer : Customer :=
  {| customer_id := 7; sponsorship_pending := true |}.

(** Collaborators of an account that has a customer with a pending
    sponsorship request, a paid plan and a plan row. *)
Definition sample_env (main_context : gmap string Any) : Env := {|
  env_get_customer_by_realm := fun _ => Some sample_customer;
  env_get_customer := fun _ => Some sample_customer;
  env_has_billing_access := fun _ => true;
  env_on_paid_plan := fun _ => true;
  env_exists := fun _ => true;
  env_get_billing_page_context := fun _ => main_context;
  env_do_update_plan := fun _ _ => Returns tt
|}.

(** Collaborators of an account that never engaged billing. *)
Definition empty_env : Env := {|
  env_get_customer_by_realm := fun _ => None;
  env_get_customer := fun _ => None;
  env_has_billing_access := fun _ => true;
  env_on_paid_plan := fun _ => false;
  env_exists := fun _ => false;
  env_get_billing_page_context := fun _ => ∅;
  env_do_update_plan := fun _ _ => Returns tt
|}.

Definition sample_user (access : bool) (plan_type : Z) : UserProfile :=
  {| has_billing_access := access;
     realm := {| realm_name := "zulip"; realm_plan_type := plan_type |} |}.

Definition sample_remote_realm (plan_type : Z) : RemoteRealmBillingSession :=
  {| remote_realm :=
       {| rr_uuid := "r-1"; rr_name := "remote"; rr_plan_type := plan_type |} |}.

Definition sample_remote_server (plan_type : Z) : RemoteServerBillingSession :=
  {| remote_server :=
       {| rs_uuid := "s-1"; rs_hostname := "host.example";
          rs_plan_type := plan_type |} |}.

Definition request_with (vars : list (string * json)) : HttpRequest :=
  {| request_user := AnonymousUser; request_vars := list_to_map vars |}.

(** Stateful collaborators over a store that holds the account's Customer:
    the lookups read it, [do_update_plan] replaces it. *)
Definition sample_handler : Handler (option Customer) := fun c w =>
  match c return Answer c * option Customer with
  | get_customer_by_realm _ => (w, w)
  | get_customer _ => (w, w)
  | session_has_billing_access _ => (true, w)
  | on_paid_plan _ => (true, w)
  | CustomerPlan_filter_exists _ => (true, w)
  | get_billing_page_context _ => (∅, w)
  | do_update_plan _ _ =>
      (Returns tt, Some {| customer_id := 7; sponsorship_pending := false |})
  end.

(** ** Predicates on views *)

(** Every call the view can make is a lookup. *)
Inductive only_lookups {A : Type} : Prog A -> Prop :=
| only_lookups_ret (a : A) : only_lookups (Ret a)
| only_lookups_do (c : Call) (k : Answer c -> Prog A) :
    is_lookup c = true ->
    (forall x, only_lookups (k x)) ->
    only_lookups (Do c k).

(** No call is made twice on any path ([seen] lists the calls made so far). *)
Inductive calls_once {A : Type} : list Call -> Prog A -> Prop :=
| calls_once_ret (seen : list Call) (a : A) : calls_once seen (Ret a)
| calls_once_do (seen : list Call) (c : Call) (k : Answer c -> Prog A) :
    c ∉ seen ->
    (forall x, calls_once (c :: seen) (k x)) ->
    calls_once seen (Do c k).

(** The answers a handler gives in a store, when asked there. *)
Definition env_at {W : Type} (h : Handler W) (w : W) : Env := {|
  env_get_customer_by_realm := fun r => (h (get_customer_by_realm r) w).1;
  env_get_customer := fun s => (h (get_customer s) w).1;
  env_has_billing_access := fun s => (h (session_has_billing_access s) w).1;
  env_on_paid_plan := fun s => (h (on_paid_plan s) w).1;
  env_exists := fun c => (h (CustomerPlan_filter_exists c) w).1;
  env_get_billing_page_context := fun s => (h (get_billing_page_context s) w).1;
  env_do_update_plan := fun s r => (h (do_update_plan s r) w).1
|}.

Definition read_only_lookups {W : Type} (h : Handler W) : Prop :=
  forall c w, is_lookup c = true -> (h c w).2 = w.

(** The billing session a call is made on, and its acting user. *)
Definition call_session (c : Call) : option BillingSession :=
  match c with
  | get_customer s | session_has_billing_access s | on_paid_plan s
  | get_billing_page_context s | do_update_plan s _ => Some s
  | get_customer_by_realm _ | CustomerPlan_filter_exists _ => None
  end.

Definition acting_user (s : BillingSession) : option UserProfile :=
  match s with
  | OfRealm s => session_user s
  | _ => None
  end.

(** ** Reading a request without running an endpoint *)

Definition as_int (v : json) : option Z :=
  match v with
  | JInt n => Some n
  | JOther _ => None
  end.

(** A request variable that is absent or carries an integer. *)
Definition int_var_ok (request : HttpRequest) (var_name : string) : bool :=
  match request_vars request !! var_name with
  | None | Some (JInt _) => true
  | Some (JOther _) => false
  end.

Section RequestShape.
Context `{K : Constants}.

(** A [status] variable that is absent or carries an allowed integer. *)
Definition status_var_ok (request : HttpRequest) : bool :=
  match request_vars request !! "status" with
  | None => true
  | Some (JInt n) => bool_decide (n ∈ ALLOWED_PLANS_API_STATUS_VALUES)
  | Some (JOther _) => false
  end.

Definition request_valid (request : HttpRequest) : bool :=
  status_var_ok request
  && int_var_ok request "licenses"
  && int_var_ok request "licenses_at_next_renewal"
  && int_var_ok request "schedule".

End RequestShape.

(** The integers the four request variables carry, absent ones as [None]. *)
Definition parsed_request (request : HttpRequest) : UpdatePlanRequest := {|
  status := request_vars request !! "status" ≫= as_int;
  licenses := request_vars request !! "licenses" ≫= as_int;
  licenses_at_next_renewal :=
    request_vars request !! "licenses_at_next_renewal" ≫= as_int;
  schedule := request_vars request !! "schedule" ≫= as_int
|}.

(** What an endpoint answers once [do_update_plan] has run. *)
Definition after_update (applied : Outcome unit) : Outcome HttpResponse :=
  match applied with
  | Raises x => Raises x
  | Returns _ => Returns JsonSuccess
  end.



(** The arguments a redirect of each kind of account carries. *)
Definition redirect_arguments (ctx : AccountContext)
    : list string * list (string * string) :=
  match ctx with
  | LocalOrganization _ => ([], [])
  | RemoteRealmAccount s => ([rr_uuid (remote_realm s)], [])
  | RemoteServerAccount s => ([], [("server_uuid", rs_uuid (remote_server s))])
  end.

(** Modelled from the spec: [get_billing_page_context] is defined in
    [corporate.lib.stripe], outside this file.  Section 4.1, step 7, has it
    produce the plan and usage context, to which the resolver adds the
    sponsorship flag of step 3: its mapping does not contradict that flag. *)
Definition keeps_sponsorship_flag (main_context : gmap string Any) : Prop :=
  forall v, main_context !! "sponsorship_pending" = Some v -> v = ABool true.

(** Stored billing records: the account's Customer and the status of its
    current CustomerPlan. *)
Record BillingStore : Type := {
  stored_customer : option Customer;
  stored_plan_status : option Z
}.

Section EndOfCycle.
Context `{K : Constants}.

(** The end-of-cycle update that the comment at the head of [billing_page]
    names ([make_end_of_cycle_updates_if_needed]): a plan scheduled to be
    downgraded at the end of its cycle is ended. *)
Definition end_of_cycle_update (w : BillingStore) : BillingStore :=
  match stored_plan_status w with
  | Some st =>
      if st =? DOWNGRADE_AT_END_OF_CYCLE
      then {| stored_customer := stored_customer w;
              stored_plan_status := Some ENDED |}
      else w
  | None => w
  end.

(** Collaborators over the stored records whose billing-page context is
    computed after the end-of-cycle update has been applied. *)
Definition end_of_cycle_handler : Handler BillingStore := fun c w =>
  match c return Answer c * BillingStore with
  | get_customer_by_realm _ => (stored_customer w, w)
  | get_customer _ => (stored_customer w, w)
  | session_has_billing_access _ => (true, w)
  | on_paid_plan _ => (true, w)
  | CustomerPlan_filter_exists _ =>
      (bool_decide (is_Some (stored_plan_status w)), w)
  | get_billing_page_context _ =>
      ({[ "has_active_plan" := ABool true ]}, end_of_cycle_update w)
  | do_update_plan _ r =>
      (Returns tt,
       {| stored_customer := stored_customer w;
          stored_plan_status :=
            match status r with
            | Some st => Some st
            | None => stored_plan_status w
            end |})
  end.

End EndOfCycle.

(** ** Theorems *)

Ltac view_cases :=
  repeat (cbn in *;
          match goal with
          | |- context [if ?b then _ else _] => destruct b eqn:?
          | |- context [match ?o with Some _ => _ | None => _ end] =>
              destruct o eqn:?
          end);
  cbn in *.

(** Running a billing-page view gives the response of the first step of
    section 4.1 whose guard holds. *)
Lemma resolve_first_match `{K : Constants} (e : Env) (ctx : AccountContext) (msg : string) :
  result (eval e (resolve ctx msg)) = Returns (resolve_in_order e ctx msg).
Proof.
  destruct ctx as [user | s | s];
    unfold resolve, resolve_in_order, decision_steps, billing_page,
      remote_realm_billing_page, remote_server_billing_page,
      billing_page_response, flagged_context, merged_context, no_access_page,
      billing_template, render, result.
  all: view_cases; try reflexivity; try congruence.
Qed.







(** C10. A logged-in user without billing access gets the billing page
    rendered with exactly the four base entries; the view is a bare return,
    so no Customer lookup, no CustomerPlan lookup and no billing-page-context
    call is made. *)
Theorem no_billing_access_renders_base_page `{K : Constants}
    (request : HttpRequest) (user : UserProfile) (msg : string) :
  request_user request = Authenticated user ->
  has_billing_access user = false ->
  billing_page request msg
  = Ret (Returns (render request "corporate/billing.html"
                    (list_to_map [
                       ("admin_access", ABool false);
                       ("has_active_plan", ABool false);
                       ("org_name", AStr (realm_name (realm user)));
                       ("billing_base_url", AStr "") ])))
  /\ forall e : Env, calls (eval e (billing_page request msg)) = [].
Proof.
  intros Huser Haccess.
  assert (Hret : billing_page request msg
                 = Ret (Returns (render request "corporate/billing.html"
                    (list_to_map [
                       ("admin_access", ABool false);
                       ("has_active_plan", ABool false);
                       ("org_name", AStr (realm_name (realm user)));
                       ("billing_base_url", AStr "") ])))).
  { unfold billing_page. rewrite Huser, Haccess. reflexivity. }
  split; [exact Hret |].
  intros e. rewrite Hret. reflexivity.
Qed.

Lemma no_billing_access_renders_base_page_witness :
  let K := sample_constants in
  let user := sample_user false 3 in
  let request := request_of (Authenticated user) in
  billing_page request ""
  = Ret (Returns (render request "corporate/billing.html"
                    (list_to_map [
                       ("admin_access", ABool false);
                       ("has_active_plan", ABool false);
                       ("org_name", AStr "zulip");
                       ("billing_base_url", AStr "") ])))
  /\ forall e : Env, calls (eval e (billing_page request "")) = [].
Proof.
  intros K user request.
  apply (no_billing_access_renders_base_page request user ""); reflexivity.
Defined.

(** C5. An account with billing access whose plan type is neither the
    community nor the limited / self-hosted tier, and which is not sent to
    the sponsorship page, is redirected to the upgrade page both when it has
    no Customer and when its Customer has no CustomerPlan row. *)
Theorem no_plan_redirects_to_upgrade `{K : Constants}
    (e : Env) (ctx : AccountContext) (msg : string) :
  has_access e ctx = true ->
  community_tier ctx = false ->
  limited_tier ctx = false ->
  is_pending (customer_of e ctx) && negb (env_on_paid_plan e (session_of ctx))
    = false ->
  (customer_of e ctx = None
   \/ exists c, customer_of e ctx = Some c /\ env_exists e c = false) ->
  result (eval e (resolve ctx msg)) = Returns (upgrade_redirect ctx)
  /\ response_kind (result (eval e (resolve ctx msg))) = RedirectTo UpgradePage.
Proof.
  intros Haccess Hcomm Hlim Hspons Hcust.
  assert (Hgate : access_gate ctx = false).
  { destruct ctx; cbn in *; [rewrite Haccess |..]; reflexivity. }
  rewrite resolve_first_match.
  unfold resolve_in_order, decision_steps; cbn.
  rewrite Hgate, Hcomm, Hspons, Hlim.
  assert (Hup : (if bool_decide (customer_of e ctx = None)
                 then upgrade_redirect ctx
                 else if negb (has_plan_rows e (customer_of e ctx))
                      then upgrade_redirect ctx
                      else billing_page_response e ctx msg)
                = upgrade_redirect ctx).
  { destruct Hcust as [Hnone | (c & Hsome & Hrows)].
    - rewrite Hnone. reflexivity.
    - rewrite Hsome; cbn. rewrite Hrows. reflexivity. }
  rewrite Hup. split; [reflexivity |].
  destruct ctx; reflexivity.
Qed.

Lemma no_plan_redirects_to_upgrade_witness :
  let K := sample_constants in
  let ctx := RemoteRealmAccount (sample_remote_realm 102) in
  result (eval empty_env (resolve ctx "")) = Returns (upgrade_redirect ctx)
  /\ response_kind (result (eval empty_env (resolve ctx ""))) = RedirectTo UpgradePage.
Proof.
  intros K ctx.
  apply (no_plan_redirects_to_upgrade empty_env ctx "");
    try reflexivity.
  left. reflexivity.
Defined.

Lemma merged_context_flag (context main_context : gmap string Any) (msg : string) :
  merged_context (<["sponsorship_pending" := ABool true]> context) main_context msg
    !! "sponsorship_pending"
  = Some (default (ABool true) (main_context !! "sponsorship_pending")).
Proof.
  unfold merged_context. case_decide as Hempty.
  - subst main_context. rewrite lookup_empty, lookup_insert_eq. reflexivity.
  - rewrite lookup_insert_ne by discriminate.
    destruct (main_context !! "sponsorship_pending") as [v |] eqn:Hmain; cbn.
    + apply lookup_union_Some_l. exact Hmain.
    + rewrite lookup_union_r by exact Hmain. apply lookup_insert_eq.
Qed.

(** C4. An account with billing access, a plan type outside the community
    and limited / self-hosted tiers, a Customer with a pending sponsorship
    request, a paid plan and at least one CustomerPlan row gets the billing
    page, not the sponsorship redirect, and [sponsorship_pending] is true in
    the context of that page.  The collaborator's billing-page context is
    merged into the page; it is taken not to contradict the flag. *)
Theorem pending_sponsorship_on_paid_plan_shows_page `{K : Constants}
    (e : Env) (ctx : AccountContext) (msg : string) (c : Customer) :
  has_access e ctx = true ->
  community_tier ctx = false ->
  limited_tier ctx = false ->
  customer_of e ctx = Some c ->
  sponsorship_pending c = true ->
  env_on_paid_plan e (session_of ctx) = true ->
  env_exists e c = true ->
  keeps_sponsorship_flag (env_get_billing_page_context e (session_of ctx)) ->
  let main_context := env_get_billing_page_context e (session_of ctx) in
  let context :=
    merged_context (<["sponsorship_pending" := ABool true]> (base_context e ctx))
      main_context msg in
  result (eval e (resolve ctx msg))
    = Returns (Rendered "corporate/billing.html" context)
  /\ context !! "sponsorship_pending" = Some (ABool true)
  /\ response_kind (result (eval e (resolve ctx msg))) = BillingPage.
Proof.
  intros Haccess Hcomm Hlim Hcust Hpend Hpaid Hrows Hkeeps main_context context.
  assert (Hgate : access_gate ctx = false).
  { destruct ctx; cbn in *; [rewrite Haccess |..]; reflexivity. }
  assert (Hpage : result (eval e (resolve ctx msg))
                  = Returns (Rendered "corporate/billing.html" context)).
  { rewrite resolve_first_match.
    unfold resolve_in_order, decision_steps, billing_page_response,
      flagged_context; cbn.
    rewrite Hgate, Hcomm, Hlim, Hcust; cbn.
    rewrite Hpend, Hpaid, Hrows; cbn. reflexivity. }
  split; [exact Hpage |]. split.
  - unfold context. rewrite merged_context_flag.
    destruct (main_context !! "sponsorship_pending") as [v |] eqn:Hmain; cbn;
      [| reflexivity].
    rewrite (Hkeeps v Hmain). reflexivity.
  - rewrite Hpage. reflexivity.
Qed.

Lemma pending_sponsorship_on_paid_plan_shows_page_witness :
  let K := sample_constants in
  let ctx := LocalOrganization (sample_user true 3) in
  let e := sample_env {[ "plan_name" := AStr "Zulip Cloud Standard" ]} in
  let context :=
    merged_context (<["sponsorship_pending" := ABool true]> (base_context e ctx))
      {[ "plan_name" := AStr "Zulip Cloud Standard" ]} "" in
  result (eval e (resolve ctx ""))
    = Returns (Rendered "corporate/billing.html" context)
  /\ context !! "sponsorship_pending" = Some (ABool true)
  /\ response_kind (result (eval e (resolve ctx ""))) = BillingPage.
Proof.
  intros K ctx e context.
  apply (pending_sponsorship_on_paid_plan_shows_page e ctx "" sample_customer);
    try reflexivity.
  intros v Hv. vm_compute in Hv. discriminate Hv.
Defined.

Lemma limited_tier_redirect_kind (ctx : AccountContext) :
  response_kind (Returns (limited_tier_redirect ctx))
  = RedirectTo (if is_remote_server ctx then UpgradePage else PlansPage).
Proof. destruct ctx; reflexivity. Qed.

Lemma resolve_kind `{K : Constants} (e : Env) (ctx : AccountContext) (msg : string) :
  response_kind (result (eval e (resolve ctx msg)))
  = step_kinds (is_remote_server ctx)
      (access_gate ctx)
      (community_tier ctx)
      (is_pending (customer_of e ctx)
         && negb (env_on_paid_plan e (session_of ctx)))
      (limited_tier ctx)
      (bool_decide (customer_of e ctx = None))
      (negb (has_plan_rows e (customer_of e ctx))).
Proof.
  rewrite resolve_first_match.
  unfold resolve_in_order, decision_steps, step_kinds; cbn.
  destruct (access_gate ctx); [reflexivity |].
  destruct (community_tier ctx); [destruct ctx; reflexivity |].
  destruct (is_pending (customer_of e ctx)
              && negb (env_on_paid_plan e (session_of ctx)));
    [destruct ctx; reflexivity |].
  destruct (limited_tier ctx); [apply limited_tier_redirect_kind |].
  destruct (bool_decide (customer_of e ctx = None)); [destruct ctx; reflexivity |].
  destruct (negb (has_plan_rows e (customer_of e ctx)));
    [destruct ctx; reflexivity | reflexivity].
Qed.

(** C3 (amended). An account on the limited / self-hosted tier that passes
    steps 1 to 3 is redirected at step 4: the local organization to "plans",
    the remote realm to "remote_realm_plans_page", and the remote server to
    "remote_server_upgrade_page", the destination it also uses when the
    Customer or its plan rows are missing.  The kind of response of every
    view is given by one table of ordered steps; the kind of account enters
    it at step 4 only, and through the access step, which only the
    local-organization view tests. *)
Theorem limited_tier_redirects `{K : Constants}
    (e : Env) (ctx : AccountContext) (msg : string) :
  response_kind (result (eval e (resolve ctx msg)))
  = step_kinds (is_remote_server ctx)
      (access_gate ctx)
      (community_tier ctx)
      (is_pending (customer_of e ctx)
         && negb (env_on_paid_plan e (session_of ctx)))
      (limited_tier ctx)
      (bool_decide (customer_of e ctx = None))
      (negb (has_plan_rows e (customer_of e ctx)))
  /\ (access_gate ctx = false ->
      community_tier ctx = false ->
      is_pending (customer_of e ctx)
        && negb (env_on_paid_plan e (session_of ctx)) = false ->
      limited_tier ctx = true ->
      result (eval e (resolve ctx msg)) = Returns (limited_tier_redirect ctx)
      /\ response_kind (result (eval e (resolve ctx msg)))
         = RedirectTo (if is_remote_server ctx then UpgradePage else PlansPage)).
Proof.
  split; [apply resolve_kind |].
  intros Hgate Hcomm Hspons Hlim.
  assert (Hresp : result (eval e (resolve ctx msg))
                  = Returns (limited_tier_redirect ctx)).
  { rewrite resolve_first_match.
    unfold resolve_in_order, decision_steps; cbn.
    rewrite Hgate, Hcomm, Hspons, Hlim. reflexivity. }
  split; [exact Hresp |].
  rewrite Hresp. apply limited_tier_redirect_kind.
Qed.

Lemma limited_tier_redirects_witness :
  let K := sample_constants in
  let ctx := RemoteRealmAccount (sample_remote_realm RemoteRealm_PLAN_TYPE_SELF_HOSTED) in
  result (eval empty_env (resolve ctx ""))
    = Returns (HttpResponseRedirect (reverse "remote_realm_plans_page" ["r-1"] []))
  /\ response_kind (result (eval empty_env (resolve ctx ""))) = RedirectTo PlansPage.
Proof.
  intros K ctx.
  apply (proj2 (limited_tier_redirects empty_env ctx "")); reflexivity.
Defined.

(** C3, as the claim states it, fails for the remote server: a server on
    the self-hosted tier is redirected to its upgrade page, not to a plans
    page. *)
Lemma remote_server_self_hosted_goes_to_upgrade :
  ~ (forall (K : Constants) (e : Env) (ctx : AccountContext) (msg : string),
       access_gate ctx = false ->
       community_tier ctx = false ->
       is_pending (customer_of e ctx)
         && negb (env_on_paid_plan e (session_of ctx)) = false ->
       limited_tier ctx = true ->
       response_kind (result (eval e (resolve ctx msg))) = RedirectTo PlansPage).
Proof.
  intros Hclaim.
  specialize (Hclaim sample_constants empty_env
                (RemoteServerAccount (sample_remote_server 1)) "").
  vm_compute in Hclaim.
  specialize (Hclaim eq_refl eq_refl eq_refl eq_refl).
  discriminate Hclaim.
Qed.

(** ** The boundary of the plan-update endpoints *)

Lemma REQ_not_allowed (request : HttpRequest) (var_name : string)
    (possible_values : list Z) (n : Z) :
  request_vars request !! var_name = Some (JInt n) ->
  n ∉ possible_values ->
  REQ request var_name (check_int_in possible_values) None
  = Raises (JsonableError ("Invalid " +:+ var_name)).
Proof.
  intros Hvar Hout. unfold REQ, check_int_in. rewrite Hvar; cbn.
  rewrite bool_decide_eq_false_2 by exact Hout. reflexivity.
Qed.

(** An endpoint with a request variable that fails its validator raises
    without calling any collaborator. *)
Lemma update_rejected `{K : Constants} (e : Env) (ctx : AccountContext)
    (request : HttpRequest) :
  (exists x, REQ request "status"
               (check_int_in ALLOWED_PLANS_API_STATUS_VALUES) None = Raises x)
  \/ (exists x, REQ request "licenses" check_int None = Raises x)
  \/ (exists x, REQ request "licenses_at_next_renewal" check_int None = Raises x)
  \/ (exists x, REQ request "schedule" check_int None = Raises x) ->
  rejected_at_boundary (eval e (update ctx request)) = true
  /\ calls (eval e (update ctx request)) = [].
Proof.
  intros Hbad.
  destruct ctx; cbn;
    unfold update_plan, update_plan_for_remote_realm,
      update_plan_for_remote_server;
    destruct (REQ request "status" _ None) as [st | x1];
    destruct (REQ request "licenses" check_int None) as [li | x2];
    destruct (REQ request "licenses_at_next_renewal" check_int None) as [la | x3];
    destruct (REQ request "schedule" check_int None) as [sc | x4];
    cbn; try (split; reflexivity);
    destruct Hbad as [[x Hx] | [[x Hx] | [[x Hx] | [x Hx]]]]; discriminate Hx.
Qed.

(** C2. At each of the three plan-update endpoints a request whose [status]
    is an integer outside [ALLOWED_PLANS_API_STATUS_VALUES] is rejected by
    the validator: the endpoint raises "Invalid status" and [do_update_plan]
    is not called.  The outcome is the same for the three kinds of account. *)
Theorem status_outside_allowed_rejected `{K : Constants}
    (e : Env) (ctx : AccountContext) (request : HttpRequest) (n : Z) :
  request_vars request !! "status" = Some (JInt n) ->
  n ∉ ALLOWED_PLANS_API_STATUS_VALUES ->
  eval e (update ctx request) = (Raises (JsonableError "Invalid status"), [])
  /\ rejected_at_boundary (eval e (update ctx request)) = true
  /\ forall ctx' : AccountContext,
       eval e (update ctx' request) = eval e (update ctx request).
Proof.
  intros Hvar Hout.
  assert (Hall : forall c : AccountContext,
             eval e (update c request)
             = (Raises (JsonableError "Invalid status"), [])).
  { intros c.
    pose proof (REQ_not_allowed request "status" _ n Hvar Hout) as Hreq.
    destruct c; cbn;
      unfold update_plan, update_plan_for_remote_realm,
        update_plan_for_remote_server;
      rewrite Hreq; reflexivity. }
  split; [apply Hall |]. split.
  - apply update_rejected. left. eexists.
    apply (REQ_not_allowed request "status" _ n Hvar Hout).
  - intros ctx'. rewrite !Hall. reflexivity.
Qed.

Lemma status_outside_allowed_rejected_witness :
  let K := sample_constants in
  let ctx := RemoteServerAccount (sample_remote_server 102) in
  let request := request_with [("status", JInt 5); ("licenses", JInt 10)] in
  eval empty_env (update ctx request)
    = (Raises (JsonableError "Invalid status"), [])
  /\ rejected_at_boundary (eval empty_env (update ctx request)) = true
  /\ forall ctx' : AccountContext,
       eval empty_env (update ctx' request) = eval empty_env (update ctx request).
Proof.
  intros K ctx request.
  apply (status_outside_allowed_rejected empty_env ctx request 5).
  - reflexivity.
  - vm_compute. intros Hin.
    repeat (apply elem_of_cons in Hin as [Hin | Hin]; [discriminate Hin |]).
    apply elem_of_nil in Hin. exact Hin.
Defined.

(** ** Resolution only reads *)

Lemma answer_env_at {W : Type} (h : Handler W) (w : W) (c : Call) :
  answer (env_at h w) c = (h c w).1.
Proof. destruct c; reflexivity. Qed.

(** A view that only makes lookups leaves the store as it found it when the
    lookups do, and then computes what [eval] computes from the answers
    given in that store. *)
Lemma run_only_lookups {W A : Type} (h : Handler W) (p : Prog A) :
  only_lookups p ->
  read_only_lookups h ->
  forall w, run h p w = (result (eval (env_at h w) p), w, calls (eval (env_at h w) p)).
Proof.
  intros Hp Hh. induction Hp as [a | c k Hc Hk IH]; intros w; cbn.
  - reflexivity.
  - rewrite answer_env_at, (Hh c w Hc), IH. reflexivity.
Qed.

Lemma only_lookups_calls {A : Type} (p : Prog A) (e : Env) :
  only_lookups p -> Forall (fun c => is_lookup c = true) (calls (eval e p)).
Proof.
  induction 1 as [a | c k Hc Hk IH]; cbn.
  - constructor.
  - constructor; [exact Hc | apply IH].
Qed.

Lemma calls_once_calls {A : Type} (seen : list Call) (p : Prog A) (e : Env) :
  calls_once seen p ->
  NoDup (calls (eval e p)) /\ forall c, c ∈ calls (eval e p) -> c ∉ seen.
Proof.
  induction 1 as [seen a | seen c k Hc Hk IH]; cbn.
  - split; [constructor | intros c Hin; inversion Hin].
  - specialize (IH (answer e c)) as [Hnodup Hfresh]. split.
    + constructor; [| exact Hnodup].
      intros Hin. apply (Hfresh c Hin). left.
    + intros c' Hin. apply elem_of_cons in Hin as [-> | Hin]; [exact Hc |].
      intros Hseen. apply (Hfresh c' Hin). right. exact Hseen.
Qed.

Ltac fresh_call :=
  let Hin := fresh "Hin" in
  intros Hin;
  repeat (apply elem_of_cons in Hin as [Hin | Hin]; [discriminate Hin |]);
  apply elem_of_nil in Hin; exact Hin.

Ltac walk_view :=
  repeat (cbv [mret mbind Prog_ret Prog_bind call] in *; cbn in *;
          lazymatch goal with
          | |- only_lookups (Ret _) => apply only_lookups_ret
          | |- only_lookups (Do _ _) =>
              apply only_lookups_do; [reflexivity | intros ?]
          | |- calls_once _ (Ret _) => apply calls_once_ret
          | |- calls_once _ (Do _ _) =>
              apply calls_once_do; [fresh_call | intros ?]
          | |- _ => case_match
          end).

Lemma resolve_only_lookups `{K : Constants} (ctx : AccountContext) (msg : string) :
  only_lookups (resolve ctx msg).
Proof.
  destruct ctx; unfold resolve, billing_page, remote_realm_billing_page,
    remote_server_billing_page; walk_view.
Qed.

Lemma resolve_calls_once `{K : Constants} (ctx : AccountContext) (msg : string) :
  calls_once [] (resolve ctx msg).
Proof.
  destruct ctx; unfold resolve, billing_page, remote_realm_billing_page,
    remote_server_billing_page; walk_view.
Qed.

(** C8 (amended). The billing-page views themselves only read: every call
    they make is a lookup, [do_update_plan] is never called, and no call is
    made twice.  When the lookups leave the stored Customer and CustomerPlan
    records as they are, the store after a resolve call is the store before
    it and the response is a function of the answers given in that store.
    What a collaborator does behind a lookup is not excluded. *)
Theorem resolution_is_read_only `{K : Constants} {W : Type}
    (h : Handler W) (ctx : AccountContext) (msg : string) (w : W) :
  read_only_lookups h ->
  run h (resolve ctx msg) w
  = (result (eval (env_at h w) (resolve ctx msg)), w,
     calls (eval (env_at h w) (resolve ctx msg)))
  /\ Forall (fun c => is_lookup c = true)
       (calls (eval (env_at h w) (resolve ctx msg)))
  /\ NoDup (calls (eval (env_at h w) (resolve ctx msg))).
Proof.
  intros Hh. split; [| split].
  - apply run_only_lookups; [apply resolve_only_lookups | exact Hh].
  - apply only_lookups_calls, resolve_only_lookups.
  - apply (calls_once_calls [] _ _ (resolve_calls_once ctx msg)).
Qed.

Lemma resolution_is_read_only_witness :
  let K := sample_constants in
  let ctx := LocalOrganization (sample_user true 3) in
  let w := Some sample_customer in
  run sample_handler (resolve ctx "") w
  = (result (eval (env_at sample_handler w) (resolve ctx "")), w,
     calls (eval (env_at sample_handler w) (resolve ctx "")))
  /\ Forall (fun c => is_lookup c = true)
       (calls (eval (env_at sample_handler w) (resolve ctx "")))
  /\ NoDup (calls (eval (env_at sample_handler w) (resolve ctx ""))).
Proof.
  intros K ctx w.
  apply (resolution_is_read_only sample_handler ctx "" w).
  intros c w' Hc. destruct c; try reflexivity. discriminate Hc.
Defined.

(** C8, as the claim states it, fails: with a billing-page-context
    collaborator that applies the end-of-cycle update before it reports, the
    stored plan is ended by a resolve call. *)
Lemma resolve_runs_end_of_cycle_update :
  ~ (forall (K : Constants) (W : Type) (h : Handler W) (ctx : AccountContext)
            (msg : string) (w : W),
       (run h (resolve ctx msg) w).1.2 = w).
Proof.
  intros Hclaim.
  specialize (Hclaim sample_constants BillingStore
                (@end_of_cycle_handler sample_constants)
                (LocalOrganization (sample_user true 3)) ""
                {| stored_customer := Some sample_customer;
                   stored_plan_status := Some 2 |}).
  vm_compute in Hclaim. discriminate Hclaim.
Qed.

(** ** Acting user of the local-organization sessions *)

Ltac session_calls :=
  repeat (cbv [mret mbind Prog_ret Prog_bind call] in *; cbn in *;
          lazymatch goal with
          | |- Forall _ [] => apply Forall_nil_2
          | |- Forall _ (_ :: _) =>
              apply Forall_cons_2;
              [let s := fresh "s" in let Hs := fresh "Hs" in
               intros s Hs; cbn in Hs; try discriminate Hs;
               injection Hs as <-; reflexivity |]
          | |- _ => case_match
          end).

Lemma billing_page_sessions `{K : Constants} (e : Env) (request : HttpRequest)
    (user : UserProfile) (msg : string) :
  request_user request = Authenticated user ->
  Forall (fun c => forall s, call_session c = Some s ->
            s = OfRealm {| session_user := None;
                           session_realm := Some (realm user) |})
    (calls (eval e (billing_page request msg))).
Proof.
  intros Huser. unfold billing_page, calls. rewrite Huser. session_calls.
Qed.

Lemma billing_page_context_call `{K : Constants} (e : Env) (request : HttpRequest)
    (user : UserProfile) (msg template : string) (context : gmap string Any) :
  request_user request = Authenticated user ->
  has_billing_access user = true ->
  result (eval e (billing_page request msg)) = Returns (Rendered template context) ->
  get_billing_page_context
    (OfRealm {| session_user := None; session_realm := Some (realm user) |})
  ∈ calls (eval e (billing_page request msg)).
Proof.
  intros Huser Haccess. unfold billing_page, calls, result.
  rewrite Huser, Haccess.
  repeat (cbv [mret mbind Prog_ret Prog_bind call] in *; cbn in *;
          lazymatch goal with
          | |- Returns (HttpResponseRedirect _) = _ -> _ => intros [=]
          | |- Returns (render _ _ _) = _ -> _ => intros _
          | |- _ ∈ _ :: _ => apply elem_of_cons
          | |- _ = _ \/ _ => first [left; reflexivity | right]
          | |- _ => case_match
          end).
Qed.

Lemma update_plan_calls `{K : Constants} (e : Env) (request : HttpRequest)
    (user : UserProfile) :
  calls (eval e (update_plan request user)) = []
  /\ rejected_at_boundary (eval e (update_plan request user)) = true
  \/ exists r,
       calls (eval e (update_plan request user))
       = [do_update_plan
            (OfRealm {| session_user := Some user; session_realm := None |}) r].
Proof.
  unfold update_plan.
  destruct (REQ request "status" _ None) as [st | x1]; cbn;
    [| left; split; reflexivity].
  destruct (REQ request "licenses" check_int None) as [li | x2]; cbn;
    [| left; split; reflexivity].
  destruct (REQ request "licenses_at_next_renewal" check_int None) as [la | x3];
    cbn; [| left; split; reflexivity].
  destruct (REQ request "schedule" check_int None) as [sc | x4]; cbn;
    [| left; split; reflexivity].
  right. eexists.
  destruct (env_do_update_plan e _ _); reflexivity.
Qed.

(** C9. With an authenticated user on the request, every billing-session
    call that [billing_page] makes is made on a session built with
    [user=None] and the user's realm, and the billing page itself is built
    from such a call; [update_plan] makes its call to [do_update_plan] on a
    session built with the acting user. *)
Theorem local_sessions_acting_user `{K : Constants} (e : Env)
    (request request' : HttpRequest) (user : UserProfile) (msg : string) :
  request_user request = Authenticated user ->
  Forall (fun c => forall s, call_session c = Some s ->
            s = OfRealm {| session_user := None;
                           session_realm := Some (realm user) |}
            /\ acting_user s = None)
    (calls (eval e (billing_page request msg)))
  /\ (has_billing_access user = true ->
      forall template context,
        result (eval e (billing_page request msg))
          = Returns (Rendered template context) ->
        get_billing_page_context
          (OfRealm {| session_user := None; session_realm := Some (realm user) |})
        ∈ calls (eval e (billing_page request msg)))
  /\ Forall (fun c => forall s, call_session c = Some s ->
               s = OfRealm {| session_user := Some user; session_realm := None |}
               /\ acting_user s = Some user)
       (calls (eval e (update_plan request' user)))
  /\ (rejected_at_boundary (eval e (update_plan request' user)) = false ->
      exists r,
        calls (eval e (update_plan request' user))
        = [do_update_plan
             (OfRealm {| session_user := Some user; session_realm := None |}) r]).
Proof.
  intros Huser. repeat split.
  - eapply Forall_impl; [apply (billing_page_sessions e request user msg Huser) |].
    intros c Hc s Hs. cbn beta in Hc. rewrite (Hc s Hs). split; reflexivity.
  - intros Haccess template context Hpage.
    apply (billing_page_context_call e request user msg template context
             Huser Haccess Hpage).
  - destruct (update_plan_calls e request' user) as [[-> _] | [r ->]].
    + constructor.
    + apply Forall_cons_2; [| constructor].
      intros s [= <-]. split; reflexivity.
  - intros Hpassed.
    destruct (update_plan_calls e request' user) as [[_ Hrej] | Hcall].
    + rewrite Hrej in Hpassed. discriminate Hpassed.
    + exact Hcall.
Qed.

Lemma local_sessions_acting_user_witness :
  let K := sample_constants in
  let user := sample_user true 3 in
  let request := request_of (Authenticated user) in
  let e := sample_env ∅ in
  Forall (fun c => forall s, call_session c = Some s ->
            s = OfRealm {| session_user := None;
                           session_realm := Some (realm user) |}
            /\ acting_user s = None)
    (calls (eval e (billing_page request "")))
  /\ get_billing_page_context
       (OfRealm {| session_user := None; session_realm := Some (realm user) |})
     ∈ calls (eval e (billing_page request ""))
  /\ calls (eval e (update_plan request user))
     = [do_update_plan
          (OfRealm {| session_user := Some user; session_realm := None |})
          {| status := None; licenses := None;
             licenses_at_next_renewal := None; schedule := None |}].
Proof.
  intros K user request e.
  destruct (local_sessions_acting_user e request request user "" eq_refl)
    as (Hpage & Hcontext & _ & Hupdate).
  split; [exact Hpage |]. split.
  - apply (Hcontext eq_refl "corporate/billing.html"
             (list_to_map [
                ("sponsorship_pending", ABool true);
                ("admin_access", ABool true);
                ("has_active_plan", ABool false);
                ("org_name", AStr "zulip");
                ("billing_base_url", AStr "") ])).
    reflexivity.
  - reflexivity.
Defined.

(** ** More on the plan-update endpoints *)

Lemma REQ_check_int_ok (request : HttpRequest) (var_name : string) :
  int_var_ok request var_name = true ->
  REQ request var_name check_int None
  = Returns (request_vars request !! var_name ≫= as_int).
Proof.
  unfold int_var_ok, REQ.
  destruct (request_vars request !! var_name) as [[n | raw] |]; cbn;
    intros Hok; try reflexivity. discriminate Hok.
Qed.

Lemma REQ_check_int_bad (request : HttpRequest) (var_name : string) :
  int_var_ok request var_name = false ->
  REQ request var_name check_int None
  = Raises (JsonableError (var_name +:+ " is not an integer")).
Proof.
  unfold int_var_ok, REQ.
  destruct (request_vars request !! var_name) as [[n | raw] |]; cbn;
    intros Hok; try discriminate Hok. reflexivity.
Qed.

Lemma REQ_status_ok `{K : Constants} (request : HttpRequest) :
  status_var_ok request = true ->
  REQ request "status" (check_int_in ALLOWED_PLANS_API_STATUS_VALUES) None
  = Returns (request_vars request !! "status" ≫= as_int).
Proof.
  unfold status_var_ok, REQ, check_int_in.
  destruct (request_vars request !! "status") as [[n | raw] |]; cbn;
    intros Hok; try reflexivity; try discriminate Hok.
  rewrite Hok. reflexivity.
Qed.

Lemma REQ_status_bad `{K : Constants} (request : HttpRequest) :
  status_var_ok request = false ->
  exists x,
    REQ request "status" (check_int_in ALLOWED_PLANS_API_STATUS_VALUES) None
    = Raises x.
Proof.
  unfold status_var_ok, REQ, check_int_in.
  destruct (request_vars request !! "status") as [[n | raw] |]; cbn;
    intros Hok; try discriminate Hok; [rewrite Hok |]; eexists; reflexivity.
Qed.

Lemma request_valid_parts `{K : Constants} (request : HttpRequest) :
  request_valid request = true ->
  status_var_ok request = true
  /\ int_var_ok request "licenses" = true
  /\ int_var_ok request "licenses_at_next_renewal" = true
  /\ int_var_ok request "schedule" = true.
Proof.
  unfold request_valid. rewrite !andb_true_iff. tauto.
Qed.

(** The whole outcome of an endpoint whose request variables pass. *)
Lemma eval_update_valid `{K : Constants} (e : Env) (ctx : AccountContext)
    (request : HttpRequest) :
  request_valid request = true ->
  eval e (update ctx request)
  = (after_update
       (env_do_update_plan e (update_session ctx) (parsed_request request)),
     [do_update_plan (update_session ctx) (parsed_request request)]).
Proof.
  intros Hvalid.
  destruct (request_valid_parts request Hvalid) as (Hst & Hli & Hla & Hsc).
  destruct ctx; cbn;
    unfold update_plan, update_plan_for_remote_realm,
      update_plan_for_remote_server;
    rewrite (REQ_status_ok request Hst), (REQ_check_int_ok request _ Hli),
      (REQ_check_int_ok request _ Hla), (REQ_check_int_ok request _ Hsc); cbn;
    unfold parsed_request;
    match goal with
    | |- context [env_do_update_plan ?e ?s ?r] =>
        destruct (env_do_update_plan e s r)
    end; reflexivity.
Qed.

Lemma update_invalid_rejected `{K : Constants} (e : Env) (ctx : AccountContext)
    (request : HttpRequest) :
  request_valid request = false ->
  rejected_at_boundary (eval e (update ctx request)) = true
  /\ calls (eval e (update ctx request)) = [].
Proof.
  intros Hinvalid. apply update_rejected.
  unfold request_valid in Hinvalid.
  destruct (status_var_ok request) eqn:Hst;
    [| left; apply REQ_status_bad; exact Hst].
  destruct (int_var_ok request "licenses") eqn:Hli;
    [| right; left; eexists; apply REQ_check_int_bad; exact Hli].
  destruct (int_var_ok request "licenses_at_next_renewal") eqn:Hla;
    [| right; right; left; eexists; apply REQ_check_int_bad; exact Hla].
  destruct (int_var_ok request "schedule") eqn:Hsc;
    [discriminate Hinvalid |].
  right; right; right. eexists. apply REQ_check_int_bad. exact Hsc.
Qed.

(** X2. A request that passes the boundary leads to exactly one collaborator
    call: [do_update_plan] on the endpoint's session, with each of the four
    fields equal to the integer the request carries and [None] for a
    variable the request leaves out.  A request with none of the four
    variables is therefore accepted and handed on with four [None]s. *)
Theorem update_hands_on_request_values `{K : Constants}
    (e : Env) (ctx : AccountContext) (request : HttpRequest) :
  request_valid request = true ->
  calls (eval e (update ctx request))
  = [do_update_plan (update_session ctx) (parsed_request request)]
  /\ (request_vars request !! "status" = None ->
      request_vars request !! "licenses" = None ->
      request_vars request !! "licenses_at_next_renewal" = None ->
      request_vars request !! "schedule" = None ->
      parsed_request request
      = {| status := None; licenses := None;
           licenses_at_next_renewal := None; schedule := None |}).
Proof.
  intros Hvalid. split.
  - rewrite (eval_update_valid e ctx request Hvalid). reflexivity.
  - intros Hst Hli Hla Hsc. unfold parsed_request.
    rewrite Hst, Hli, Hla, Hsc. reflexivity.
Qed.

Lemma update_hands_on_request_values_witness :
  let K := sample_constants in
  let ctx := RemoteRealmAccount (sample_remote_realm 102) in
  let request :=
    request_with [("status", JInt DOWNGRADE_AT_END_OF_CYCLE);
                  ("licenses_at_next_renewal", JInt 12)] in
  calls (eval empty_env (update ctx request))
  = [do_update_plan (OfRemoteRealm (sample_remote_realm 102))
       {| status := Some 2; licenses := None;
          licenses_at_next_renewal := Some 12; schedule := None |}].
Proof.
  intros K ctx request.
  assert (Hvalid : request_valid request = true) by (vm_compute; reflexivity).
  apply (proj1 (update_hands_on_request_values empty_env ctx request Hvalid)).
Defined.

(** X3. Once the boundary is passed, the endpoint's answer is decided by
    [do_update_plan]: an exception it raises is raised by the endpoint
    unchanged, and a normal return gives [json_success]. *)
Theorem update_outcome_is_engine_outcome `{K : Constants}
    (e : Env) (ctx : AccountContext) (request : HttpRequest) :
  request_valid request = true ->
  (forall x,
     env_do_update_plan e (update_session ctx) (parsed_request request) = Raises x ->
     result (eval e (update ctx request)) = Raises x)
  /\ (forall u,
        env_do_update_plan e (update_session ctx) (parsed_request request)
          = Returns u ->
        result (eval e (update ctx request)) = Returns (json_success request)).
Proof.
  intros Hvalid. rewrite (eval_update_valid e ctx request Hvalid).
  split; intros x Hx; cbn; rewrite Hx; reflexivity.
Qed.

Lemma update_outcome_is_engine_outcome_witness :
  let K := sample_constants in
  let ctx := LocalOrganization (sample_user true 3) in
  let request := request_with [("licenses", JInt 3)] in
  result (eval empty_env (update ctx request)) = Returns (json_success request).
Proof.
  intros K ctx request.
  assert (Hvalid : request_valid request = true) by (vm_compute; reflexivity).
  apply (proj2 (update_outcome_is_engine_outcome empty_env ctx request Hvalid) tt).
  reflexivity.
Defined.

(** The endpoints as programs: one call when the request passes, a bare
    raise when it does not. *)
Lemma update_program_valid `{K : Constants} (ctx : AccountContext)
    (request : HttpRequest) :
  request_valid request = true ->
  update ctx request
  = Do (do_update_plan (update_session ctx) (parsed_request request))
       (fun applied : Outcome unit =>
          match applied with
          | Raises x => Ret (Raises x)
          | Returns _ => Ret (Returns JsonSuccess)
          end).
Proof.
  intros Hvalid.
  destruct (request_valid_parts request Hvalid) as (Hst & Hli & Hla & Hsc).
  destruct ctx; cbn;
    unfold update_plan, update_plan_for_remote_realm,
      update_plan_for_remote_server;
    rewrite (REQ_status_ok request Hst), (REQ_check_int_ok request _ Hli),
      (REQ_check_int_ok request _ Hla), (REQ_check_int_ok request _ Hsc); cbn;
    reflexivity.
Qed.

Lemma update_program_invalid `{K : Constants} (ctx : AccountContext)
    (request : HttpRequest) :
  request_valid request = false ->
  exists x, update ctx request = Ret (Raises x).
Proof.
  intros Hinvalid. unfold request_valid in Hinvalid.
  destruct (status_var_ok request) eqn:Hst.
  2: { destruct (REQ_status_bad request Hst) as [x Hx]. exists x.
       destruct ctx; cbn;
         unfold update_plan, update_plan_for_remote_realm,
           update_plan_for_remote_server;
         rewrite Hx; reflexivity. }
  destruct (int_var_ok request "licenses") eqn:Hli.
  2: { eexists.
       destruct ctx; cbn;
         unfold update_plan, update_plan_for_remote_realm,
           update_plan_for_remote_server;
         rewrite (REQ_status_ok request Hst), (REQ_check_int_bad request _ Hli);
         reflexivity. }
  destruct (int_var_ok request "licenses_at_next_renewal") eqn:Hla.
  2: { eexists.
       destruct ctx; cbn;
         unfold update_plan, update_plan_for_remote_realm,
           update_plan_for_remote_server;
         rewrite (REQ_status_ok request Hst), (REQ_check_int_ok request _ Hli),
           (REQ_check_int_bad request _ Hla);
         reflexivity. }
  destruct (int_var_ok request "schedule") eqn:Hsc; [discriminate Hinvalid |].
  eexists.
  destruct ctx; cbn;
    unfold update_plan, update_plan_for_remote_realm,
      update_plan_for_remote_server;
    rewrite (REQ_status_ok request Hst), (REQ_check_int_ok request _ Hli),
      (REQ_check_int_ok request _ Hla), (REQ_check_int_bad request _ Hsc);
    reflexivity.
Qed.

(** X5. Whatever the collaborators do to the stored records, a request
    rejected at the boundary leaves the store as it was, and an accepted
    request leaves exactly the store that the one [do_update_plan] call
    produces: the endpoints add no write of their own. *)
Theorem update_store_is_engine_store `{K : Constants} {W : Type}
    (h : Handler W) (ctx : AccountContext) (request : HttpRequest) (w : W) :
  (request_valid request = false ->
   (run h (update ctx request) w).1.2 = w
   /\ (run h (update ctx request) w).2 = [])
  /\ (request_valid request = true ->
      (run h (update ctx request) w).1.2
      = (h (do_update_plan (update_session ctx) (parsed_request request)) w).2
      /\ (run h (update ctx request) w).1.1
         = after_update
             (h (do_update_plan (update_session ctx) (parsed_request request)) w).1).
Proof.
  split.
  - intros Hinvalid.
    destruct (update_program_invalid ctx request Hinvalid) as [x ->].
    split; reflexivity.
  - intros Hvalid. rewrite (update_program_valid ctx request Hvalid); cbn.
    destruct (h (do_update_plan (update_session ctx) (parsed_request request)) w)
      as [applied w1]; cbn in *.
    destruct applied; split; reflexivity.
Qed.

Lemma update_store_is_engine_store_witness :
  let K := sample_constants in
  let ctx := LocalOrganization (sample_user true 3) in
  let request := request_with [("licenses", JOther "many")] in
  (run sample_handler (update ctx request) (Some sample_customer)).1.2
    = Some sample_customer
  /\ (run sample_handler (update ctx request) (Some sample_customer)).2 = [].
Proof.
  intros K ctx request.
  assert (Hbad : request_valid request = false) by (vm_compute; reflexivity).
  apply (proj1 (update_store_is_engine_store sample_handler ctx request
                  (Some sample_customer)) Hbad).
Defined.

(** X6. The endpoints read the four named request variables and nothing
    else: two requests that agree on them are rejected or accepted alike and
    lead to the same collaborator calls. *)
Theorem update_reads_four_variables `{K : Constants}
    (e : Env) (ctx : AccountContext) (request1 request2 : HttpRequest) :
  request_vars request1 !! "status" = request_vars request2 !! "status" ->
  request_vars request1 !! "licenses" = request_vars request2 !! "licenses" ->
  request_vars request1 !! "licenses_at_next_renewal"
    = request_vars request2 !! "licenses_at_next_renewal" ->
  request_vars request1 !! "schedule" = request_vars request2 !! "schedule" ->
  calls (eval e (update ctx request1)) = calls (eval e (update ctx request2))
  /\ rejected_at_boundary (eval e (update ctx request1))
     = rejected_at_boundary (eval e (update ctx request2)).
Proof.
  intros Hst Hli Hla Hsc.
  assert (Hvalid : request_valid request1 = request_valid request2).
  { unfold request_valid, status_var_ok, int_var_ok.
    rewrite Hst, Hli, Hla, Hsc. reflexivity. }
  assert (Hparsed : parsed_request request1 = parsed_request request2).
  { unfold parsed_request. rewrite Hst, Hli, Hla, Hsc. reflexivity. }
  destruct (request_valid request2) eqn:Hvalid2.
  - rewrite (eval_update_valid e ctx request1 Hvalid),
      (eval_update_valid e ctx request2 Hvalid2), Hparsed.
    split; reflexivity.
  - destruct (update_invalid_rejected e ctx request1 Hvalid) as [Hrej1 ->].
    destruct (update_invalid_rejected e ctx request2 Hvalid2) as [Hrej2 ->].
    rewrite Hrej1, Hrej2. split; reflexivity.
Qed.

Lemma update_reads_four_variables_witness :
  let K := sample_constants in
  let ctx := RemoteRealmAccount (sample_remote_realm 102) in
  let request1 := request_with [("schedule", JInt 1)] in
  let request2 := request_with [("schedule", JInt 1); ("seats", JOther "x")] in
  calls (eval empty_env (update ctx request1))
    = calls (eval empty_env (update ctx request2))
  /\ rejected_at_boundary (eval empty_env (update ctx request1))
     = rejected_at_boundary (eval empty_env (update ctx request2)).
Proof.
  intros K ctx request1 request2.
  apply (update_reads_four_variables empty_env ctx request1 request2);
    vm_compute; reflexivity.
Defined.

(** X7. A plan-update endpoint makes at most one collaborator call, on its
    own session, and that call is [do_update_plan]: the endpoints never look
    up the Customer or its plans themselves. *)
Theorem update_calls_only_do_update_plan `{K : Constants}
    (e : Env) (ctx : AccountContext) (request : HttpRequest) :
  (length (calls (eval e (update ctx request))) <= 1)%nat
  /\ Forall (fun c => is_do_update_plan c = true
                      /\ call_session c = Some (update_session ctx))
       (calls (eval e (update ctx request))).
Proof.
  destruct (request_valid request) eqn:Hvalid.
  - rewrite (eval_update_valid e ctx request Hvalid); cbn.
    split; [lia |]. apply Forall_cons_2; [split; reflexivity | constructor].
  - destruct (update_invalid_rejected e ctx request Hvalid) as [_ ->]; cbn.
    split; [lia | constructor].
Qed.

(** ** More on the billing-page views *)

Ltac unfold_views :=
  unfold resolve, billing_page, remote_realm_billing_page,
    remote_server_billing_page, access_gate, community_tier, limited_tier,
    customer_of, fetch_call, session_of, response_kind, result, calls in *.

Ltac trace_leaf :=
  split;
  [ let Hin := fresh "Hin" in
    intros Hin;
    repeat (apply elem_of_cons in Hin as [Hin | Hin]; [try discriminate Hin |]);
    try (apply elem_of_nil in Hin; destruct Hin);
    simplify_eq; repeat split; congruence
  | let Hc := fresh "Hc" in
    intros Hc; destruct_and?; simplify_eq;
    repeat first [apply list_elem_of_here | apply list_elem_of_further] ].

(** X8. The billing-page-context collaborator is called exactly when the
    view goes on to render the full billing page: never before a redirect,
    and never for a user without billing access. *)
Theorem page_context_called_exactly_for_page `{K : Constants}
    (e : Env) (ctx : AccountContext) (msg : string) :
  get_billing_page_context (session_of ctx) ∈ calls (eval e (resolve ctx msg))
  <-> access_gate ctx = false
      /\ response_kind (result (eval e (resolve ctx msg))) = BillingPage.
Proof.
  destruct ctx as [user | s | s]; unfold_views; view_cases; trace_leaf.
Qed.

(** X9. The views ask the collaborators only what the next step needs: the
    Customer is fetched once the access and community-tier steps are passed;
    the paid-plan test is made only for a Customer with a pending
    sponsorship request; the CustomerPlan rows are queried only for an
    existing Customer that reached step 6, so never for the limited /
    self-hosted tier. *)
Theorem lookups_made_only_when_needed `{K : Constants}
    (e : Env) (ctx : AccountContext) (msg : string) :
  (fetch_call ctx ∈ calls (eval e (resolve ctx msg))
   <-> access_gate ctx = false /\ community_tier ctx = false)
  /\ (on_paid_plan (session_of ctx) ∈ calls (eval e (resolve ctx msg))
      <-> access_gate ctx = false /\ community_tier ctx = false
          /\ is_pending (customer_of e ctx) = true)
  /\ (forall c,
        CustomerPlan_filter_exists c ∈ calls (eval e (resolve ctx msg))
        <-> access_gate ctx = false /\ community_tier ctx = false
            /\ is_pending (customer_of e ctx)
                 && negb (env_on_paid_plan e (session_of ctx)) = false
            /\ limited_tier ctx = false
            /\ customer_of e ctx = Some c).
Proof.
  split; [| split; [| intros c0]].
  all: destruct ctx as [user | s | s]; unfold_views; unfold is_pending;
    view_cases; trace_leaf.
Qed.

(** X10. Every redirect a view issues goes to a sponsorship, plans or
    upgrade view of the same account: a remote realm's redirects carry that
    realm's uuid as their one positional argument, a remote server's carry
    its uuid as [server_uuid], and a local organization's carry no
    argument. *)
Theorem redirects_stay_on_account `{K : Constants}
    (e : Env) (ctx : AccountContext) (msg : string) (u : Url) :
  result (eval e (resolve ctx msg)) = Returns (HttpResponseRedirect u) ->
  (url_args u, url_kwargs u) = redirect_arguments ctx
  /\ page_kind u <> None.
Proof.
  destruct ctx as [user | s | s]; unfold_views; view_cases;
    intros Hu; simplify_eq; split; (reflexivity || discriminate).
Qed.

Lemma redirects_stay_on_account_witness :
  let K := sample_constants in
  let ctx := RemoteServerAccount (sample_remote_server 1) in
  let u := reverse "remote_server_upgrade_page" [] [("server_uuid", "s-1")] in
  (url_args u, url_kwargs u) = redirect_arguments ctx
  /\ page_kind u <> None.
Proof.
  intros K ctx u.
  apply (redirects_stay_on_account empty_env ctx "" u). reflexivity.
Defined.

(** A page rendered past the access step is the full billing page. *)
Lemma rendered_page_context `{K : Constants} (e : Env) (ctx : AccountContext)
    (msg template : string) (context : gmap string Any) :
  access_gate ctx = false ->
  result (eval e (resolve ctx msg)) = Returns (Rendered template context) ->
  template = "corporate/billing.html"
  /\ context
     = merged_context (flagged_context e ctx)
         (env_get_billing_page_context e (session_of ctx)) msg.
Proof.
  intros Hgate. rewrite resolve_first_match.
  unfold resolve_in_order, decision_steps; cbn. rewrite Hgate.
  destruct (community_tier ctx); [destruct ctx; discriminate |].
  destruct (is_pending (customer_of e ctx)
              && negb (env_on_paid_plan e (session_of ctx)));
    [destruct ctx; discriminate |].
  destruct (limited_tier ctx); [destruct ctx; discriminate |].
  destruct (bool_decide (customer_of e ctx = None)); [destruct ctx; discriminate |].
  destruct (negb (has_plan_rows e (customer_of e ctx)));
    [destruct ctx; discriminate |].
  unfold billing_page_response, billing_template.
  intros [= <- <-]. split; reflexivity.
Qed.

Lemma base_context_lookups (e : Env) (ctx : AccountContext) :
  base_context e ctx !! "success_message" = None
  /\ base_context e ctx !! "sponsorship_pending" = None
  /\ base_context e ctx !! "has_active_plan" = Some (ABool false)
  /\ base_context e ctx !! "admin_access" = Some (ABool (has_access e ctx)).
Proof. destruct ctx; repeat split; reflexivity. Qed.

Lemma flagged_context_lookup `{K : Constants} (e : Env) (ctx : AccountContext)
    (k : string) :
  k <> "sponsorship_pending" ->
  flagged_context e ctx !! k = base_context e ctx !! k.
Proof.
  intros Hk. unfold flagged_context.
  destruct (is_pending (customer_of e ctx)); [| reflexivity].
  apply lookup_insert_ne. congruence.
Qed.

Lemma merged_context_lookup (context main_context : gmap string Any)
    (msg k : string) :
  k <> "success_message" ->
  merged_context context main_context msg !! k
  = match main_context !! k with
    | Some v => Some v
    | None => context !! k
    end.
Proof.
  intros Hk. unfold merged_context. case_decide as Hempty.
  - subst main_context. rewrite lookup_empty. reflexivity.
  - rewrite lookup_insert_ne by congruence.
    destruct (main_context !! k) as [v |] eqn:Hmain.
    + apply lookup_union_Some_l. exact Hmain.
    + apply lookup_union_r. exact Hmain.
Qed.

(** X11. On the full billing page the [success_message] entry is the
    request's success message whenever the collaborator's context is not
    empty, even if that context binds [success_message] itself; when the
    collaborator's context is empty the page carries no [success_message]
    at all and the request's message is dropped. *)
Theorem success_message_on_page `{K : Constants}
    (e : Env) (ctx : AccountContext) (msg template : string)
    (context : gmap string Any) :
  access_gate ctx = false ->
  result (eval e (resolve ctx msg)) = Returns (Rendered template context) ->
  context !! "success_message"
  = if decide (env_get_billing_page_context e (session_of ctx) = ∅)
    then None
    else Some (AStr msg).
Proof.
  intros Hgate Hpage.
  destruct (rendered_page_context e ctx msg template context Hgate Hpage)
    as [_ ->].
  unfold merged_context. case_decide as Hempty.
  - rewrite flagged_context_lookup by discriminate.
    apply base_context_lookups.
  - apply lookup_insert_eq.
Qed.

Lemma success_message_on_page_witness :
  let K := sample_constants in
  let ctx := LocalOrganization (sample_user true 3) in
  let e := sample_env {[ "success_message" := AStr "from the session" ]} in
  let context :=
    merged_context (flagged_context e ctx)
      (env_get_billing_page_context e (session_of ctx)) "Plan updated" in
  result (eval e (resolve ctx "Plan updated"))
    = Returns (Rendered "corporate/billing.html" context)
  /\ context !! "success_message" = Some (AStr "Plan updated").
Proof.
  intros K ctx e context.
  assert (Hpage : result (eval e (resolve ctx "Plan updated"))
                  = Returns (Rendered "corporate/billing.html" context))
    by reflexivity.
  split; [exact Hpage |].
  rewrite (success_message_on_page e ctx "Plan updated" _ context eq_refl Hpage).
  reflexivity.
Defined.

(** X12. On the full billing page every entry other than [success_message]
    is the collaborator's when the collaborator's context binds the key, and
    the view's own entry otherwise: the collaborator's context takes
    precedence over the base entries and over the sponsorship flag. *)
Theorem page_context_precedence `{K : Constants}
    (e : Env) (ctx : AccountContext) (msg template k : string)
    (context : gmap string Any) :
  access_gate ctx = false ->
  result (eval e (resolve ctx msg)) = Returns (Rendered template context) ->
  k <> "success_message" ->
  context !! k
  = match env_get_billing_page_context e (session_of ctx) !! k with
    | Some v => Some v
    | None => flagged_context e ctx !! k
    end.
Proof.
  intros Hgate Hpage Hk.
  destruct (rendered_page_context e ctx msg template context Hgate Hpage)
    as [_ ->].
  apply merged_context_lookup. exact Hk.
Qed.

Lemma page_context_precedence_witness :
  let K := sample_constants in
  let ctx := RemoteRealmAccount (sample_remote_realm 102) in
  let e := sample_env {[ "has_active_plan" := ABool true ]} in
  let context :=
    merged_context (flagged_context e ctx)
      (env_get_billing_page_context e (session_of ctx)) "" in
  result (eval e (resolve ctx ""))
    = Returns (Rendered "corporate/billing.html" context)
  /\ context !! "has_active_plan" = Some (ABool true).
Proof.
  intros K ctx e context.
  assert (Hpage : result (eval e (resolve ctx ""))
                  = Returns (Rendered "corporate/billing.html" context))
    by reflexivity.
  split; [exact Hpage |].
  rewrite (page_context_precedence e ctx "" _ "has_active_plan" context
             eq_refl Hpage); [reflexivity | discriminate].
Defined.

(** X13. On the full billing page [has_active_plan] is false unless the
    collaborator's context binds it, and [sponsorship_pending] is absent
    when the Customer has no pending sponsorship request and the
    collaborator's context does not bind it. *)
Theorem page_flags_default `{K : Constants}
    (e : Env) (ctx : AccountContext) (msg template : string)
    (context : gmap string Any) :
  access_gate ctx = false ->
  result (eval e (resolve ctx msg)) = Returns (Rendered template context) ->
  context !! "has_active_plan"
  = Some (default (ABool false)
            (env_get_billing_page_context e (session_of ctx) !! "has_active_plan"))
  /\ (is_pending (customer_of e ctx) = false ->
      env_get_billing_page_context e (session_of ctx) !! "sponsorship_pending"
        = None ->
      context !! "sponsorship_pending" = None).
Proof.
  intros Hgate Hpage.
  destruct (rendered_page_context e ctx msg template context Hgate Hpage)
    as [_ ->].
  split.
  - rewrite merged_context_lookup by discriminate.
    destruct (env_get_billing_page_context e (session_of ctx) !! "has_active_plan");
      [reflexivity |].
    rewrite flagged_context_lookup by discriminate.
    apply base_context_lookups.
  - intros Hpending Hfree.
    rewrite merged_context_lookup by discriminate. rewrite Hfree.
    unfold flagged_context. rewrite Hpending.
    apply base_context_lookups.
Qed.

Lemma page_flags_default_witness :
  let K := sample_constants in
  let ctx := RemoteServerAccount (sample_remote_server 102) in
  let e := sample_env {[ "plan_name" := AStr "Business" ]} in
  let context :=
    merged_context (flagged_context e ctx)
      (env_get_billing_page_context e (session_of ctx)) "" in
  result (eval e (resolve ctx ""))
    = Returns (Rendered "corporate/billing.html" context)
  /\ context !! "has_active_plan" = Some (ABool false).
Proof.
  intros K ctx e context.
  assert (Hpage : result (eval e (resolve ctx ""))
                  = Returns (Rendered "corporate/billing.html" context))
    by reflexivity.
  split; [exact Hpage |].
  rewrite (proj1 (page_flags_default e ctx "" _ context eq_refl Hpage)).
  reflexivity.
Defined.

(** X14. The success message never changes which collaborators a view
    calls, and it changes the response only on the full billing page with a
    non-empty collaborator context: redirects and the no-access page drop
    it. *)
Theorem success_message_only_on_page `{K : Constants}
    (e : Env) (ctx : AccountContext) (msg1 msg2 : string) :
  calls (eval e (resolve ctx msg1)) = calls (eval e (resolve ctx msg2))
  /\ (response_kind (result (eval e (resolve ctx msg1))) <> BillingPage
      \/ access_gate ctx = true
      \/ env_get_billing_page_context e (session_of ctx) = ∅ ->
      result (eval e (resolve ctx msg1)) = result (eval e (resolve ctx msg2))).
Proof.
  split.
  - destruct ctx as [user | s | s]; unfold_views; view_cases; reflexivity.
  - destruct ctx as [user | s | s]; unfold_views; view_cases;
      intros Hd; try reflexivity;
      destruct Hd as [Hd | [Hd | Hd]]; congruence.
Qed.

Lemma success_message_only_on_page_witness :
  let K := sample_constants in
  let ctx := LocalOrganization (sample_user true Realm_PLAN_TYPE_LIMITED) in
  result (eval empty_env (resolve ctx "Plan updated"))
  = result (eval empty_env (resolve ctx "")).
Proof.
  intros K ctx.
  apply (proj2 (success_message_only_on_page empty_env ctx "Plan updated" "")).
  left. discriminate.
Defined.

(** X15. A view redirects to the sponsorship page exactly when the access
    step is passed and either the account is on the community tier or its
    Customer has a pending sponsorship request and is not on a paid plan. *)
Theorem sponsorship_redirect_exactly_when `{K : Constants}
    (e : Env) (ctx : AccountContext) (msg : string) :
  response_kind (result (eval e (resolve ctx msg))) = RedirectTo SponsorshipPage
  <-> access_gate ctx = false
      /\ (community_tier ctx = true
          \/ is_pending (customer_of e ctx) = true
             /\ env_on_paid_plan e (session_of ctx) = false).
Proof.
  rewrite resolve_kind. unfold step_kinds; cbn.
  destruct (access_gate ctx), (community_tier ctx),
    (is_pending (customer_of e ctx)), (env_on_paid_plan e (session_of ctx)),
    (limited_tier ctx), (is_remote_server ctx),
    (bool_decide (customer_of e ctx = None)),
    (has_plan_rows e (customer_of e ctx)); cbn;
    split; intros H; try discriminate H; try (intuition congruence).
Qed.

(** X16. A view renders the billing template exactly when the user lacks
    billing access (the base page) or the account passed every step: it is
    on neither special tier, is not sent to the sponsorship page, and has a
    Customer with at least one CustomerPlan row. *)
Theorem billing_template_exactly_when `{K : Constants}
    (e : Env) (ctx : AccountContext) (msg : string) :
  response_kind (result (eval e (resolve ctx msg))) = BillingPage
  <-> access_gate ctx = true
      \/ (community_tier ctx = false
          /\ is_pending (customer_of e ctx)
               && negb (env_on_paid_plan e (session_of ctx)) = false
          /\ limited_tier ctx = false
          /\ exists c, customer_of e ctx = Some c /\ env_exists e c = true).
Proof.
  rewrite resolve_kind. unfold step_kinds, has_plan_rows; cbn.
  destruct (access_gate ctx); [split; [left; reflexivity | reflexivity] |].
  destruct (community_tier ctx);
    [split; [discriminate | intros [? | (? & _)]; discriminate] |].
  destruct (is_pending (customer_of e ctx)
              && negb (env_on_paid_plan e (session_of ctx)));
    [split; [discriminate | intros [? | (_ & ? & _)]; discriminate] |].
  destruct (limited_tier ctx);
    [split; [destruct (is_remote_server ctx); discriminate
            | intros [? | (_ & _ & ? & _)]; discriminate] |].
  destruct (customer_of e ctx) as [c |]; cbn.
  - destruct (env_exists e c) eqn:Hrows; cbn.
    + split; [| reflexivity]. intros _. right. eauto 10.
    + split; [discriminate |].
      intros [? | (_ & _ & _ & c' & [= <-] & Hc)]; congruence.
  - split; [discriminate |].
    intros [? | (_ & _ & _ & c' & ? & _)]; discriminate.
Qed.


